(** * ValidateMD: the multi-source confidence scoring engine

    A shallow embedding of [Backend/validation/confidence/confidence.py]
    and the properties its specification states about it.

    Conventions of the embedding.
    - A Python [float] is an exact rational ([Q]); [==] on floats is [Qeq].
      The rounding error and the non-finite values of binary64 are outside
      the model.  [round(x, 2)] rounds the exact value to the nearest
      multiple of 1/100, ties to the even one.
    - A field value is [None] or a [str].  A [str] is a [string] whose
      characters are the code points U+0000..U+00FF; [str.isdigit],
      [str.isspace] and [str.lower] are the tables of Python on that range.
    - A Python [dict] is an association list in insertion order; [wf] says
      that its keys are distinct.
    - The exceptions the scoring functions could raise ([ZeroDivisionError]
      of [/], [KeyError] of a subscript) are results of an error monad.
    - The module constants [FIELD_WEIGHTS] and [METHOD_WEIGHTS] are
      parameters of the engine; [Defaults] has the tables of the source.
    - [rapidfuzz.fuzz] is an external library: its three ratios are a
      parameter of the development. *)

From Stdlib Require Import ZArith QArith Qround Lqa Lia.
From Stdlib Require Import List String Ascii Bool.
From Stdlib Require Import DecimalString.
From Stdlib Require Import Morphisms Setoid.
Import ListNotations.

Local Open Scope string_scope.
Local Open Scope Q_scope.

(** ** Python strings *)

Module PyStr.

(** [ch.isdigit()] on U+0000..U+00FF: the ASCII digits and the
    superscripts U+00B2, U+00B3 and U+00B9. *)
Definition isdigit (ch : ascii) : bool :=
  let n := N_of_ascii ch in
  ((48 <=? n) && (n <=? 57) || (n =? 178) || (n =? 179) || (n =? 185))%N.

(** [ch.isspace()] on the same range. *)
Definition isspace (ch : ascii) : bool :=
  let n := N_of_ascii ch in
  ((9 <=? n) && (n <=? 13) || (28 <=? n) && (n <=? 32)
   || (n =? 133) || (n =? 160))%N.

(** [ch.lower()]: A..Z and the Latin-1 capitals U+00C0..U+00DE (the
    multiplication sign U+00D7 apart) move up by 32. *)
Definition lower_char (ch : ascii) : ascii :=
  let n := N_of_ascii ch in
  if ((65 <=? n) && (n <=? 90)
      || (192 <=? n) && (n <=? 222) && negb (n =? 215))%N
  then ascii_of_N (n + 32) else ch.

Fixpoint lower (s : string) : string :=
  match s with
  | EmptyString => EmptyString
  | String ch s' => String (lower_char ch) (lower s')
  end.

(** ["".join(ch for ch in s if p(ch))] *)
Fixpoint filter (p : ascii -> bool) (s : string) : string :=
  match s with
  | EmptyString => EmptyString
  | String ch s' => if p ch then String ch (filter p s') else filter p s'
  end.

Fixpoint lstrip (s : string) : string :=
  match s with
  | EmptyString => EmptyString
  | String ch s' => if isspace ch then lstrip s' else s
  end.

Fixpoint rstrip (s : string) : string :=
  match s with
  | EmptyString => EmptyString
  | String ch s' =>
      match rstrip s' with
      | EmptyString => if isspace ch then EmptyString else String ch EmptyString
      | r => String ch r
      end
  end.

(** [s.strip()] *)
Definition strip (s : string) : string := rstrip (lstrip s).

(** Truth value of a string: [bool(s)]. *)
Definition nonempty (s : string) : bool :=
  match s with EmptyString => false | String _ _ => true end.

End PyStr.

(** ** Python values: [None] or a string *)

Definition pyval := option string.

(** [bool(v)]: [None] and [""] are false. *)
Definition truthy (v : pyval) : bool :=
  match v with
  | None => false
  | Some s => PyStr.nonempty s
  end.

(** ** Python dicts, in insertion order *)

Module PyDict.

Definition dict (V : Type) := list (string * V).

Section Ops.
Context {V : Type}.

(** [d.get(k)] *)
Fixpoint get (d : dict V) (k : string) : option V :=
  match d with
  | [] => None
  | (k', v) :: d' => if String.eqb k k' then Some v else get d' k
  end.

(** [d.get(k, dflt)] *)
Definition get_default (d : dict V) (k : string) (dflt : V) : V :=
  match get d k with Some v => v | None => dflt end.

(** [d[k] = v]: an existing key keeps its place, a new one goes last. *)
Fixpoint set (d : dict V) (k : string) (v : V) : dict V :=
  match d with
  | [] => [(k, v)]
  | (k', v') :: d' =>
      if String.eqb k k' then (k', v) :: d' else (k', v') :: set d' k v
  end.

(** [list(d.keys())] and [d.items()] *)
Definition keys (d : dict V) : list string := map fst d.
Definition items (d : dict V) : list (string * V) := d.

(** A list of pairs is a dict when no key occurs twice. *)
Definition wf (d : dict V) : Prop := NoDup (keys d).

End Ops.

End PyDict.

Import PyDict.

(** ** Exceptions *)

Inductive exn : Type :=
| ZeroDivisionError
| KeyError (k : string).

Inductive res (A : Type) : Type :=
| Ok (a : A)
| Raise (e : exn).

Arguments Ok {A} a.
Arguments Raise {A} e.

Definition bind {A B : Type} (m : res A) (k : A -> res B) : res B :=
  match m with
  | Ok a => k a
  | Raise e => Raise e
  end.

Notation "x <- m ;; k" := (bind m (fun x => k))
  (at level 61, m at next level, right associativity).
Notation "' pat <- m ;; k" := (bind m (fun x => match x with pat => k end))
  (at level 61, pat pattern, m at next level, right associativity).

(** A [for] loop whose body may raise. *)
Fixpoint for_each {A S : Type} (xs : list A) (body : S -> A -> res S) (s : S)
  : res S :=
  match xs with
  | [] => Ok s
  | x :: xs' => s' <- body s x ;; for_each xs' body s'
  end.

(** [d[k]] *)
Definition subscript {V : Type} (d : dict V) (k : string) : res V :=
  match get d k with
  | Some v => Ok v
  | None => Raise (KeyError k)
  end.

Definition returns {A : Type} (m : res A) : Prop := exists a, m = Ok a.

(** ** Python floats as exact rationals *)

Module PyNum.

(** [a < b] *)
Definition ltb (a b : Q) : bool := negb (Qle_bool b a).

(** [min(a, b)] and [max(a, b)]: the first argument wins a tie. *)
Definition min (a b : Q) : Q := if ltb b a then b else a.
Definition max (a b : Q) : Q := if ltb a b then b else a.

(** [a / b] *)
Definition div (a b : Q) : res Q :=
  if Qeq_bool b 0 then Raise ZeroDivisionError else Ok (a / b).

(** Nearest integer, ties to even. *)
Definition round_half_even (q : Q) : Z :=
  let f := Qfloor q in
  match Qcompare (q - inject_Z f) (1 # 2) with
  | Lt => f
  | Gt => (f + 1)%Z
  | Eq => if Z.even f then f else (f + 1)%Z
  end.

(** [round(x, 2)] *)
Definition round2 (x : Q) : Q := round_half_even (x * 100) # 100.

(** A value with at most two decimals. *)
Definition two_decimals (x : Q) : Prop := exists k : Z, x == k # 100.

End PyNum.

(** ** The engine: [confidence.py] *)

(** The three ratios of [rapidfuzz.fuzz] the engine calls. *)
Record rapidfuzz : Type := {
  token_set_ratio : string -> string -> Q;
  token_sort_ratio : string -> string -> Q;
  ratio : string -> string -> Q
}.

(** A claimed record or a method result: field name to value. *)
Definition record := dict pyval.

(** [r.get(f)]: the value, [None] when the key is absent. *)
Definition get_val (r : record) (f : string) : pyval :=
  match get r f with
  | Some v => v
  | None => None
  end.

(** The string behind a value known to be true. *)
Definition str_of (v : pyval) : string :=
  match v with
  | Some s => s
  | None => ""
  end.

(** The digits of a string: ["".join(ch for ch in a if ch.isdigit())]. *)
Definition digits_of (s : string) : string := PyStr.filter PyStr.isdigit s.

Definition PHONE_EXACT_BONUS : Q := 10.
Definition NPI_EXACT_SCORE : Q := 100.

(** One entry of [method_scores] in [evaluate_all]. *)
Record method_summary : Type := {
  method_score : Q;
  breakdown : dict Q
}.

Section Engine.

Variable fuzz : rapidfuzz.

(** The module's weight tables. *)
Variable FIELD_WEIGHTS : dict Q.
Variable METHOD_WEIGHTS : dict Q.

(** *** Similarity functions *)

Definition name_similarity (a b : pyval) : Q :=
  if negb (truthy a) || negb (truthy b) then 0
  else token_set_ratio fuzz (str_of a) (str_of b).

Definition address_similarity (a b : pyval) : Q :=
  if negb (truthy a) || negb (truthy b) then 0
  else token_set_ratio fuzz (str_of a) (str_of b).

Definition specialty_similarity (a b : pyval) : Q :=
  if negb (truthy a) || negb (truthy b) then 0
  else
    let a_clean := PyStr.strip (PyStr.lower (str_of a)) in
    let b_clean := PyStr.strip (PyStr.lower (str_of b)) in
    if String.eqb a_clean b_clean then 100
    else token_sort_ratio fuzz a_clean b_clean.

Definition phone_similarity (a b : pyval) : Q :=
  if negb (truthy a) || negb (truthy b) then 0
  else
    let da := digits_of (str_of a) in
    let db := digits_of (str_of b) in
    if negb (PyStr.nonempty da) || negb (PyStr.nonempty db) then 0
    else if String.eqb da db then PyNum.min 100 (100 + PHONE_EXACT_BONUS)
    else ratio fuzz da db.

Definition npi_similarity (a b : pyval) : Q :=
  if negb (truthy a) || negb (truthy b) then 0
  else
    let a_digits := digits_of (str_of a) in
    let b_digits := digits_of (str_of b) in
    if PyStr.nonempty a_digits && PyStr.nonempty b_digits
       && String.eqb a_digits b_digits
    then 100 else 0.

(** *** Field-level confidence for a single method *)

Definition field_confidence_for_method
    (field : string) (extracted_value method_value : pyval) : Q :=
  let s :=
    if String.eqb field "name" then
      name_similarity extracted_value method_value
    else if String.eqb field "address" then
      address_similarity extracted_value method_value
    else if String.eqb field "specialty" then
      specialty_similarity extracted_value method_value
    else if String.eqb field "phone" then
      phone_similarity extracted_value method_value
    else if String.eqb field "npi" then
      npi_similarity extracted_value method_value
    else 0 in
  PyNum.max 0 (PyNum.min 100 s).

(** *** A single method's score *)

(** The body of the loop over [fields]; the state is
    [(breakdown, weighted_sum, weight_total)]. *)
Definition method_score_step (extracted method_result : record)
    (st : dict Q * Q * Q) (f : string) : dict Q * Q * Q :=
  let '(breakdown, weighted_sum, weight_total) := st in
  let ext_val := get_val extracted f in
  let m_val := get_val method_result f in
  let conf := field_confidence_for_method f ext_val m_val in
  let breakdown := set breakdown f (PyNum.round2 conf) in
  let w := get_default FIELD_WEIGHTS f 0 in
  (breakdown, weighted_sum + conf * w, weight_total + w).

Definition compute_method_score (method_name : string)
    (extracted method_result : record) (fields : option (list string))
  : res (Q * dict Q) :=
  let fields :=
    match fields with
    | None => keys FIELD_WEIGHTS
    | Some fields => fields
    end in
  let '(breakdown, weighted_sum, weight_total) :=
    fold_left (method_score_step extracted method_result) fields
      (([] : dict Q), 0, 0) in
  method_score <-
    (if PyNum.ltb 0 weight_total
     then PyNum.div weighted_sum weight_total else Ok 0) ;;
  Ok (PyNum.round2 method_score, breakdown).

(** *** Per-field confidences combined across methods *)

(** The inner loop of the first phase: one method's row of the matrix. *)
Definition per_field_of (extracted result : record) (fields : list string)
  : dict Q :=
  fold_left
    (fun per_field f =>
       set per_field f
         (field_confidence_for_method f (get_val extracted f) (get_val result f)))
    fields [].

(** The first phase: the per-method per-field matrix. *)
Definition per_method_field_of (extracted : record)
    (method_results : dict record) (fields : list string) : dict (dict Q) :=
  fold_left
    (fun per_method_field '(method_name, result) =>
       set per_method_field method_name (per_field_of extracted result fields))
    (items method_results) [].

(** The body of the loop over the methods for one field; the state is
    [(num, den)]. *)
Definition combine_step (method_weights : dict Q) (f : string)
    (st : Q * Q) (item : string * dict Q) : res (Q * Q) :=
  let '(num, den) := st in
  let '(method_name, per_field) := item in
  let w := get_default method_weights method_name 0 in
  c <- subscript per_field f ;;
  Ok (num + c * w, den + w).

Definition compute_combined_field_confidences (extracted : record)
    (method_results : dict record) (method_weights : option (dict Q))
  : res (dict Q * dict (dict Q)) :=
  let method_weights :=
    match method_weights with
    | None => METHOD_WEIGHTS
    | Some w => w
    end in
  let fields := keys FIELD_WEIGHTS in
  let per_method_field := per_method_field_of extracted method_results fields in
  combined <-
    for_each fields
      (fun combined f =>
         '(num, den) <-
           for_each (items per_method_field) (combine_step method_weights f)
             (0, 0) ;;
         q <- (if negb (Qeq_bool den 0) then PyNum.div num den else Ok 0) ;;
         Ok (set combined f (PyNum.round2 q)))
      [] ;;
  Ok (combined, per_method_field).

(** *** Overall confidence *)

Definition overall_step (field_weights : dict Q) (st : Q * Q)
    (item : string * Q) : Q * Q :=
  let '(num, den) := st in
  let '(f, conf) := item in
  let w := get_default field_weights f 0 in
  (num + conf * w, den + w).

Definition compute_overall_confidence (combined_field_confidences : dict Q)
    (field_weights : option (dict Q)) : res Q :=
  let field_weights :=
    match field_weights with
    | None => FIELD_WEIGHTS
    | Some w => w
    end in
  let '(num, den) :=
    fold_left (overall_step field_weights)
      (items combined_field_confidences) (0, 0) in
  overall <- (if negb (Qeq_bool den 0) then PyNum.div num den else Ok 0) ;;
  Ok (PyNum.round2 overall).

(** *** The full pipeline *)

Definition evaluate_all (extracted : record) (method_results : dict record)
    (method_weights field_weights : option (dict Q))
  : res (dict method_summary * dict Q * dict (dict Q) * Q) :=
  method_scores <-
    for_each (items method_results)
      (fun method_scores '(method_name, result) =>
         '(score, breakdown) <-
           compute_method_score method_name extracted result None ;;
         Ok (set method_scores method_name
               {| method_score := score; breakdown := breakdown |}))
      [] ;;
  '(combined_fields, per_method_field_confidences) <-
    compute_combined_field_confidences extracted method_results method_weights ;;
  overall <- compute_overall_confidence combined_fields field_weights ;;
  Ok (method_scores, combined_fields, per_method_field_confidences, overall).

End Engine.

(** [max(0.0, min(100.0, s))] *)
Definition clamp (s : Q) : Q := PyNum.max 0 (PyNum.min 100 s).

(** ** The tables and the demo of the source *)

Module Defaults.

Definition FIELD_WEIGHTS : dict Q :=
  [("npi", 0.30); ("name", 0.25); ("address", 0.20); ("phone", 0.15);
   ("specialty", 0.10)].

Definition METHOD_WEIGHTS : dict Q :=
  [("npi_registry", 0.45); ("web_scrape", 0.30); ("google_maps", 0.25)].

End Defaults.

Module Demo.

Definition extracted : record :=
  [("npi", Some "1003000480");
   ("name", Some "Kevin Bradley Rothchild");
   ("address", Some "1550 S Potomac St Ste 100, Aurora, CO 80012");
   ("phone", Some "303-493-7000");
   ("specialty", Some "Pediatrics")].

Definition npireg : record :=
  [("npi", Some "1003000480");
   ("name", Some "Kevin B Rothchild");
   ("address", Some "1550 S Potomac St Ste 100, Aurora, CO 80012");
   ("phone", Some "3034937000");
   ("specialty", Some "Pediatrics")].

Definition web : record :=
  [("npi", Some "1003000480");
   ("name", Some "NPI 1003000480 Kevin Bradley Rothchild in Aurora - Address, Medicare Status, and Contact");
   ("address", Some "1550 S Potomac St, Aurora, CO");
   ("phone", Some "(303) 493-7000");
   ("specialty", Some "Pediatrics")].

Definition maps : record :=
  [("npi", None);
   ("name", None);
   ("address", Some "1550 S Potomac St Ste 100, Aurora, CO 80012");
   ("phone", Some "+1 303-493-7000");
   ("specialty", None)].

Definition methods : dict record :=
  [("npi_registry", npireg); ("web_scrape", web); ("google_maps", maps)].

End Demo.

(** ** An instance of the ratios, to run the engine

    [indel_ratio] is the normalised indel similarity, which is what
    [rapidfuzz.fuzz.ratio] computes: 100 * 2 * lcs / (len a + len b), and 100
    for two empty strings.  The token ratios of [indel_fuzz] are the same
    function: the token preprocessing of rapidfuzz is not modelled.  The
    theorems below hold for every instance. *)

(** One row of the table of longest-common-subsequence lengths: [prev] is
    the row above, [diag] and [left] the entries above-left and left. *)
Fixpoint lcs_row (c : ascii) (t : string) (prev : list nat) (diag left : nat)
  : list nat :=
  match t, prev with
  | String d t', up :: prev' =>
      let v := if Ascii.eqb c d then S diag else Nat.max up left in
      v :: lcs_row c t' prev' up v
  | _, _ => []
  end.

Fixpoint lcs_rows (s t : string) (prev : list nat) : list nat :=
  match s with
  | EmptyString => prev
  | String c s' => lcs_rows s' t (lcs_row c t prev 0%nat 0%nat)
  end.

Definition lcs (s t : string) : nat :=
  last (lcs_rows s t (repeat 0%nat (String.length t))) 0%nat.

Definition indel_ratio (s t : string) : Q :=
  let n := (String.length s + String.length t)%nat in
  match n with
  | O => 100
  | _ => (Z.of_nat (200 * lcs s t)) # (Pos.of_nat n)
  end.

Definition indel_fuzz : rapidfuzz :=
  {| token_set_ratio := indel_ratio;
     token_sort_ratio := indel_ratio;
     ratio := indel_ratio |}.

(** ** Weighted averages, as the specification words them *)

Definition in_range (x : Q) : Prop := 0 <= x <= 100.

Definition values_in_range (d : dict Q) : Prop :=
  Forall (fun kv => in_range (snd kv)) d.

Definition nonneg_weights (table : dict Q) : Prop :=
  Forall (fun kv => 0 <= snd kv) table.

Definition has_negative_weight (table : dict Q) : Prop :=
  Exists (fun kv => snd kv < 0) table.

(** [table.get(k, 0.0)] *)
Definition weight_of (table : dict Q) (k : string) : Q := get_default table k 0.

(** Sum of value times weight, and sum of the weights, of a list of
    (value, weight) pairs. *)
Definition wsum (xs : list (Q * Q)) : Q :=
  fold_right (fun p acc => fst p * snd p + acc) 0 xs.

Definition wtotal (xs : list (Q * Q)) : Q :=
  fold_right (fun p acc => snd p + acc) 0 xs.

(** The weighted average normalised by the weights used; 0 when they sum
    to 0. *)
Definition weighted_average (xs : list (Q * Q)) : Q :=
  if Qeq_bool (wtotal xs) 0 then 0 else wsum xs / wtotal xs.

(** The weights of a list of pairs divided by their total. *)
Definition renormalize (xs : list (Q * Q)) : list (Q * Q) :=
  map (fun p => (fst p, snd p / wtotal xs)) xs.

(** An optional argument and its default. *)
Definition or_default {A : Type} (arg : option A) (dflt : A) : A :=
  match arg with
  | None => dflt
  | Some a => a
  end.

Section Views.

Variable fuzz : rapidfuzz.

(** What a method's score averages: per field, the similarity and the
    weight of the field. *)
Definition field_pairs (field_weights : dict Q) (extracted method_result : record)
    (fields : list string) : list (Q * Q) :=
  map
    (fun f =>
       (field_confidence_for_method fuzz f
          (get_val extracted f) (get_val method_result f),
        weight_of field_weights f))
    fields.

(** What a field's combined confidence averages: per method of
    [method_results], the similarity and the weight of the method. *)
Definition method_pairs (method_weights : dict Q) (extracted : record)
    (method_results : dict record) (f : string) : list (Q * Q) :=
  map
    (fun item =>
       (field_confidence_for_method fuzz f
          (get_val extracted f) (get_val (snd item) f),
        weight_of method_weights (fst item)))
    method_results.

(** The same pairs read off the rows of the per-method per-field matrix. *)
Definition row_pairs (method_weights : dict Q) (rows : dict (dict Q))
    (f : string) : list (Q * Q) :=
  map
    (fun item => (get_default (snd item) f 0, weight_of method_weights (fst item)))
    rows.

(** The value the method scorer returns, and its breakdown, as functions of
    the pairs. *)
Definition method_score_of (field_weights : dict Q)
    (extracted method_result : record) (fields : list string) : Q :=
  let xs := field_pairs field_weights extracted method_result fields in
  PyNum.round2 (if PyNum.ltb 0 (wtotal xs) then wsum xs / wtotal xs else 0).

Definition breakdown_of (extracted method_result : record)
    (fields : list string) : dict Q :=
  fold_left
    (fun b f =>
       set b f
         (PyNum.round2
            (field_confidence_for_method fuzz f
               (get_val extracted f) (get_val method_result f))))
    fields [].

Definition summary_of (field_weights : dict Q)
    (extracted method_result : record) : method_summary :=
  {| method_score :=
       method_score_of field_weights extracted method_result (keys field_weights);
     breakdown := breakdown_of extracted method_result (keys field_weights) |}.

(** The combined confidences as a function of the matrix. *)
Definition combined_of (method_weights : dict Q) (rows : dict (dict Q))
    (fields : list string) : dict Q :=
  fold_left
    (fun c f =>
       set c f (PyNum.round2 (weighted_average (row_pairs method_weights rows f))))
    fields [].

(** What the overall confidence averages: per combined field, its
    confidence and the weight of the field. *)
Definition overall_pairs (field_weights : dict Q) (combined : dict Q)
  : list (Q * Q) :=
  map (fun item => (snd item, weight_of field_weights (fst item))) combined.

(** The method summaries [evaluate_all] builds. *)
Definition method_scores_of (field_weights : dict Q) (extracted : record)
    (method_results : dict record) : dict method_summary :=
  fold_left
    (fun ms '(method_name, result) =>
       set ms method_name (summary_of field_weights extracted result))
    method_results [].

(** The methods that supplied a non-null value for field [f]. *)
Definition reporting (method_results : dict record) (f : string) : dict record :=
  List.filter
    (fun item =>
       match get_val (snd item) f with
       | Some _ => true
       | None => false
       end)
    method_results.

(** The combined confidence of field [f] as the specification words it:
    the average over the reporting methods only. *)
Definition reporting_average (method_weights : dict Q) (extracted : record)
    (method_results : dict record) (f : string) : Q :=
  PyNum.round2
    (weighted_average
       (method_pairs method_weights extracted (reporting method_results f) f)).

(** The aggregator leaves the silent methods out of every tracked field. *)
Definition excludes_silent_methods (field_weights default_method_weights : dict Q)
    (extracted : record) (method_results : dict record)
    (method_weights : option (dict Q)) : Prop :=
  exists combined rows,
    compute_combined_field_confidences fuzz field_weights default_method_weights
      extracted method_results method_weights = Ok (combined, rows)
    /\ forall f, In f (keys field_weights) ->
         exists c, get combined f = Some c
           /\ c == reporting_average
                     (or_default method_weights default_method_weights)
                     extracted method_results f.

(** A table with a negative weight makes the pipeline raise. *)
Definition negative_weights_rejected (field_weights default_method_weights : dict Q)
    (extracted : record) (method_results : dict record)
    (method_weights : dict Q) : Prop :=
  has_negative_weight method_weights ->
  ~ returns
      (evaluate_all fuzz field_weights default_method_weights
         extracted method_results (Some method_weights) None).

End Views.

Definition values_two_decimals (d : dict Q) : Prop :=
  Forall (fun kv => PyNum.two_decimals (snd kv)) d.

(** Two methods that disagree on the npi, and a method weight table with a
    negative entry. *)
Module Skewed.

Definition extracted : record := [("npi", Some "1003000480")].

Definition methods : dict record :=
  [("npi_registry", [("npi", Some "1003000480")]);
   ("web_scrape", [("npi", Some "1003000481")])].

Definition weights : dict Q := [("npi_registry", 1); ("web_scrape", -0.5)].

End Skewed.

(** ** Relations between inputs of the engine *)

(** Every weight of a table multiplied by [k]. *)
Definition scale_weights (k : Q) (table : dict Q) : dict Q :=
  map (fun kv => (fst kv, k * snd kv)) table.

(** Two records with the same values on the given fields. *)
Definition agree_on (fields : list string) (r r' : record) : Prop :=
  forall f, In f fields -> get_val r f = get_val r' f.

(** Two dicts of method results with the same method names, in the same
    order, whose records agree on the given fields. *)
Definition methods_agree_on (fields : list string)
    (method_results method_results' : dict record) : Prop :=
  Forall2
    (fun x y => fst x = fst y /\ agree_on fields (snd x) (snd y))
    method_results method_results'.

Definition values_zero (d : dict Q) : Prop := Forall (fun kv => snd kv == 0) d.

(** ** The caller of the engine: [validate_provider.py] *)

(** The dict [run_validations] returns. *)
Record validation_report : Type := {
  method_confidences : dict Q;
  combined_field_confidences : dict Q;
  overall_confidence : Q
}.

Section RunValidations.

Variable fuzz : rapidfuzz.
Variable FIELD_WEIGHTS : dict Q.
Variable METHOD_WEIGHTS : dict Q.

(** The three sources are network look-ups of other modules; each is taken
    as a function from the value it is given to the record it returns. *)
Variable validate_via_npi_registry : pyval -> record.
Variable scrape_npino : pyval -> record.
Variable validate_via_google : pyval -> record.

Definition run_validations (extracted : record) : res validation_report :=
  npi <- subscript extracted "npi" ;;
  let npi_result := validate_via_npi_registry npi in
  npi' <- subscript extracted "npi" ;;
  let web_result := scrape_npino npi' in
  address <- subscript extracted "address" ;;
  let maps_result := validate_via_google address in
  let method_results : dict record :=
    [("npi_registry", npi_result);
     ("web_scrape", web_result);
     ("google_maps", maps_result)] in
  '(method_scores, combined_fields, per_method_fields, overall) <-
    evaluate_all fuzz FIELD_WEIGHTS METHOD_WEIGHTS
      extracted method_results None None ;;
  Ok {| method_confidences :=
          fold_left (fun d '(m, v) => set d m (method_score v))
            (items method_scores) [];
        combined_field_confidences := combined_fields;
        overall_confidence := overall |}.

End RunValidations.

(** ** Splitting strings *)

Module PySplit.

(** [c in s] for a one-character [c] *)
Fixpoint contains_char (c : ascii) (s : string) : bool :=
  match s with
  | EmptyString => false
  | String a s' => Ascii.eqb a c || contains_char c s'
  end.

(** [s.split(sep)] for a one-character separator: the parts between the
    separators, never an empty list. *)
Fixpoint split_char (sep : ascii) (s : string) : list string :=
  match s with
  | EmptyString => [EmptyString]
  | String a s' =>
      if Ascii.eqb a sep then EmptyString :: split_char sep s'
      else
        match split_char sep s' with
        | p :: ps => String a p :: ps
        | [] => [String a EmptyString]
        end
  end.

(** [s.rsplit(sep, 1)]: cut at the last separator, if any. *)
Fixpoint rsplit1 (sep : ascii) (s : string) : list string :=
  match s with
  | EmptyString => [EmptyString]
  | String a s' =>
      match rsplit1 sep s' with
      | [t] => if Ascii.eqb a sep then [EmptyString; t] else [String a t]
      | h :: rest => String a h :: rest
      | [] => []
      end
  end.

End PySplit.

(** ** File names: [allowed_file] of [app.py], [detect_file_type] of
    [main_pipeline.py] *)

Module FileNames.
Import PySplit.

Definition ALLOWED_EXTENSIONS : list string := ["csv"].

(** [allowed_file]; [None] stands for the [IndexError] of the subscript. *)
Definition allowed_file (filename : string) : option bool :=
  if contains_char "." filename then
    match nth_error (rsplit1 "." filename) 1 with
    | Some ext =>
        Some (existsb (String.eqb (PyStr.lower ext)) ALLOWED_EXTENSIONS)
    | None => None
    end
  else Some false.

(** What [detect_file_type] does: the providers an extractor returns, or
    [ValueError]. *)
Inductive detected (A : Type) : Type :=
| Extracted (providers : A)
| UnsupportedFileType.

Arguments Extracted {A} providers.
Arguments UnsupportedFileType {A}.

Section Detect.

Context {A : Type}.

(** The two extractors read the file; each is taken as a function of the
    path. *)
Variable extract_from_csv : string -> A.
Variable extract_from_pdf : string -> A.

Definition detect_file_type (file_path : string) : detected A :=
  let ext := last (split_char "." (PyStr.lower file_path)) EmptyString in
  if String.eqb ext "csv" then Extracted (extract_from_csv file_path)
  else if String.eqb ext "pdf" then Extracted (extract_from_pdf file_path)
  else UnsupportedFileType.

End Detect.

End FileNames.

(** ** Values in comparisons and in f-strings *)

Module PyValue.

(** [str(v)] and the f-string format of a value *)
Definition str (v : pyval) : string :=
  match v with
  | Some s => s
  | None => "None"
  end.

(** [a == b] on values *)
Definition pyval_eqb (a b : pyval) : bool :=
  match a, b with
  | None, None => true
  | Some s, Some t => String.eqb s t
  | _, _ => false
  end.

End PyValue.

(** ** [extract_all_provider_info] of [npi_matcher.py] *)

Module ProviderInfo.
Import PyValue.

(** A taxonomy of the registry: its [primary] flag, a JSON boolean that may
    be absent, and its other keys, which hold strings. *)
Record taxonomy : Type := {
  primary : option bool;
  tax_fields : record
}.

(** A result of the registry: each of the three keys may be absent. *)
Record provider : Type := {
  basic : option record;
  addresses : option (list record);
  taxonomies : option (list taxonomy)
}.

(** [bool(x)] for a list or a dict *)
Definition dict_truthy {A : Type} (x : list A) : bool :=
  match x with
  | [] => false
  | _ :: _ => true
  end.

(** The first element a [for] loop with [break] stops at. *)
Fixpoint first_such {A : Type} (p : A -> bool) (l : list A) : option A :=
  match l with
  | [] => None
  | x :: l' => if p x then Some x else first_such p l'
  end.

Definition is_location (addr : record) : bool :=
  pyval_eqb (get_val addr "address_purpose") (Some "LOCATION").

(** [tax.get('primary', False)] as a condition *)
Definition is_primary (tax : taxonomy) : bool :=
  match primary tax with
  | Some b => b
  | None => false
  end.

(** [bool(tax)] for a taxonomy dict: it is empty without flag and key. *)
Definition tax_truthy (tax : taxonomy) : bool :=
  match primary tax with
  | Some _ => true
  | None => dict_truthy (tax_fields tax)
  end.

(** [x.get(k, 'N/A') if x else 'N/A'] *)
Definition field_or_na (x : option record) (k : string) : pyval :=
  match x with
  | Some d => if dict_truthy d then get_default d k (Some "N/A") else Some "N/A"
  | None => Some "N/A"
  end.

Definition tax_field_or_na (x : option taxonomy) (k : string) : pyval :=
  match x with
  | Some t =>
      if tax_truthy t then get_default (tax_fields t) k (Some "N/A")
      else Some "N/A"
  | None => Some "N/A"
  end.

Definition practice_address_of (addresses : list record) : option record :=
  let practice_address := first_such is_location addresses in
  let unset :=
    match practice_address with
    | None => true
    | Some d => negb (dict_truthy d)
    end in
  if unset && dict_truthy addresses then hd_error addresses
  else practice_address.

Definition primary_specialty_of (taxonomies : list taxonomy) : option taxonomy :=
  let primary_specialty := first_such is_primary taxonomies in
  let unset :=
    match primary_specialty with
    | None => true
    | Some t => negb (tax_truthy t)
    end in
  if unset && dict_truthy taxonomies then hd_error taxonomies
  else primary_specialty.

Definition extract_all_provider_info (p : provider) : record :=
  let basic := or_default (basic p) [] in
  let addresses := or_default (addresses p) [] in
  let taxonomies := or_default (taxonomies p) [] in
  let practice_address := practice_address_of addresses in
  let primary_specialty := primary_specialty_of taxonomies in
  [("first_name", get_default basic "first_name" (Some "N/A"));
   ("last_name", get_default basic "last_name" (Some "N/A"));
   ("full_name",
    Some (str (get_default basic "first_name" (Some "")) ++ " "
          ++ str (get_default basic "last_name" (Some ""))));
   ("Credential", get_default basic "credential" (Some "N/A"));
   ("Status",
    if pyval_eqb (get_val basic "status") (Some "A") then Some "ACTIVE"
    else Some "INACTIVE");
   ("Address", field_or_na practice_address "address_1");
   ("City", field_or_na practice_address "city");
   ("State", field_or_na practice_address "state");
   ("Zip", field_or_na practice_address "postal_code");
   ("Phone", field_or_na practice_address "telephone_number");
   ("Speciality", tax_field_or_na primary_specialty "desc");
   ("License_number", tax_field_or_na primary_specialty "license");
   ("Education", Some "N/A - Not available in NPI registry");
   ("enumeration_date", get_default basic "enumeration_date" (Some "N/A"));
   ("last_updated", get_default basic "last_updated" (Some "N/A"));
   ("gender", get_default basic "sex" (Some "N/A"))].

(** The five address fields of [info] are those of the address [a]. *)
Definition address_fields_from (info : record) (a : record) : Prop :=
  get info "Address" = Some (get_default a "address_1" (Some "N/A"))
  /\ get info "City" = Some (get_default a "city" (Some "N/A"))
  /\ get info "State" = Some (get_default a "state" (Some "N/A"))
  /\ get info "Zip" = Some (get_default a "postal_code" (Some "N/A"))
  /\ get info "Phone" = Some (get_default a "telephone_number" (Some "N/A")).

End ProviderInfo.

(** ** The registry matcher: [npi_matcher.py] *)

Module NpiMatcher.
Import PyValue ProviderInfo.

(** The decimal digits of an [int], as an f-string prints it. *)
Definition decimal (n : nat) : string := NilEmpty.string_of_uint (Nat.to_uint n).

(** [mismatch.split(':')[0]] *)
Definition before_colon (mismatch : string) : string :=
  hd EmptyString (PySplit.split_char ":" mismatch).

(** What the request to the registry came to: a first result; no result;
    or one of the three exceptions [get_npi_provider_data] catches, with the
    text of the exception. *)
Inductive registry_reply : Type :=
| Found (provider : provider)
| NoResult
| TimedOut
| RequestFailed (e : string)
| OtherFailure (e : string).

Definition get_npi_provider_data (reply : registry_reply) : record :=
  match reply with
  | Found provider =>
      let npi_info := extract_all_provider_info provider in
      set npi_info "status" (Some "SUCCESS")
  | NoResult =>
      [("first_name", Some "NOT_FOUND"); ("last_name", Some "");
       ("full_name", Some "NOT_FOUND"); ("status", Some "NOT_FOUND")]
  | TimedOut =>
      [("first_name", Some "ERROR"); ("last_name", Some "");
       ("full_name", Some "ERROR: Request timeout"); ("status", Some "ERROR")]
  | RequestFailed e =>
      [("first_name", Some "ERROR"); ("last_name", Some "");
       ("full_name", Some ("ERROR: Network error - " ++ e));
       ("status", Some "ERROR")]
  | OtherFailure e =>
      [("first_name", Some "ERROR"); ("last_name", Some "");
       ("full_name", Some ("ERROR: " ++ e)); ("status", Some "ERROR")]
  end.

(** One entry of the list [validate_providers_from_csv] returns. *)
Record validation_result : Type := {
  provider_id : nat;
  csv_data : record;
  npi_data : record;
  mismatches : list string;
  ai_insights : list string;
  match_status : pyval;
  ai_enabled : bool
}.

(** The dict [get_validation_summary] returns. *)
Record summary : Type := {
  total_providers : nat;
  successful_lookups : nat;
  perfect_matches : nat;
  ai_insights_count : nat;
  mismatch_types : dict nat;
  success_rate : Q;
  match_rate : Q
}.

Section Matching.

(** [str.upper] is a built-in; its case mapping does not stay within
    U+0000..U+00FF, and it is taken as a parameter. *)
Variable upper : string -> string.

(** The validation with the language model, taken as a function that
    returns its two lists. *)
Variable enhanced_validate_provider : record -> record -> list string * list string.

Definition fields_to_check : list string :=
  ["first_name"; "last_name"; "Credential"; "City"; "State"; "Zip"; "Phone"].

Definition check_data_match_basic (csv_provider npi_data : record)
  : list string :=
  fold_left
    (fun mismatches field =>
       let csv_val := upper (str (get_default csv_provider field (Some ""))) in
       let npi_val := upper (str (get_default npi_data field (Some ""))) in
       if negb (String.eqb csv_val npi_val)
          && PyStr.nonempty csv_val && PyStr.nonempty npi_val
          && negb (String.eqb npi_val "N/A")
       then
         let text :=
           upper field ++ ": CSV '" ++ str (get_val csv_provider field)
           ++ "' vs NPI '" ++ str (get_val npi_data field) ++ "'" in
         List.app mismatches [text]
       else mismatches)
    fields_to_check [].

(** The body of the loop of [validate_providers_from_csv] for one row, from
    the dict of the row and the dict [get_npi_provider_data] returned. *)
Definition provider_result (use_ai : bool) (provider_num : nat)
    (csv_dict npi_data : record) : res validation_result :=
  status <- subscript npi_data "status" ;;
  if pyval_eqb status (Some "SUCCESS") then
    let '(mismatches, ai_insights) :=
      if use_ai then enhanced_validate_provider csv_dict npi_data
      else (check_data_match_basic csv_dict npi_data, []) in
    let match_status :=
      if Nat.eqb (List.length mismatches) 0 then "PERFECT_MATCH"
      else decimal (List.length mismatches) ++ "_MISMATCHES" in
    Ok {| provider_id := provider_num; csv_data := csv_dict;
          npi_data := npi_data; mismatches := mismatches;
          ai_insights := ai_insights; match_status := Some match_status;
          ai_enabled := use_ai |}
  else
    status' <- subscript npi_data "status" ;;
    Ok {| provider_id := provider_num; csv_data := csv_dict;
          npi_data := npi_data; mismatches := [];
          ai_insights := []; match_status := status';
          ai_enabled := use_ai |}.

End Matching.

(** [n / d * 100] with its guard [if d > 0 else 0] *)
Definition rate (n d : nat) : res Q :=
  if Nat.ltb 0 d then
    q <- PyNum.div (inject_Z (Z.of_nat n)) (inject_Z (Z.of_nat d)) ;;
    Ok (q * 100)
  else Ok 0.

Definition count_mismatch (types : dict nat) (mismatch : string) : dict nat :=
  let mismatch_type := before_colon mismatch in
  set types mismatch_type (get_default types mismatch_type 0%nat + 1)%nat.

Definition get_validation_summary (results : list validation_result)
  : res summary :=
  let total_providers := List.length results in
  successful <-
    for_each results
      (fun kept r =>
         status <- subscript (npi_data r) "status" ;;
         Ok (if pyval_eqb status (Some "SUCCESS") then (kept ++ [r])%list
             else kept))
      [] ;;
  let successful_lookups := List.length successful in
  let perfect_matches :=
    List.length
      (List.filter
         (fun r => pyval_eqb (match_status r) (Some "PERFECT_MATCH")) results) in
  let ai_insights_count :=
    fold_left (fun n r => (n + List.length (ai_insights r))%nat) results 0%nat in
  let mismatch_types :=
    fold_left
      (fun types result => fold_left count_mismatch (mismatches result) types)
      results [] in
  success_rate <- rate successful_lookups total_providers ;;
  match_rate <- rate perfect_matches successful_lookups ;;
  Ok {| total_providers := total_providers;
        successful_lookups := successful_lookups;
        perfect_matches := perfect_matches;
        ai_insights_count := ai_insights_count;
        mismatch_types := mismatch_types;
        success_rate := success_rate;
        match_rate := match_rate |}.

(** The lookup of a result succeeded. *)
Definition lookup_succeeded (r : validation_result) : bool :=
  match get (npi_data r) "status" with
  | Some status => pyval_eqb status (Some "SUCCESS")
  | None => false
  end.

Definition is_perfect_match (r : validation_result) : bool :=
  pyval_eqb (match_status r) (Some "PERFECT_MATCH").

(** All the mismatches of a list of results, in order. *)
Definition all_mismatches (results : list validation_result) : list string :=
  flat_map mismatches results.

(** A result the loop of [validate_providers_from_csv] can produce. *)
Definition produced_by_loop (upper : string -> string)
    (enhanced : record -> record -> list string * list string)
    (r : validation_result) : Prop :=
  exists use_ai provider_num csv_dict reply,
    provider_result upper enhanced use_ai provider_num csv_dict
      (get_npi_provider_data reply) = Ok r.

End NpiMatcher.


(** ** The pipeline: [extract_from_pdf] and [process_providers] of
    [main_pipeline.py] *)

Section Pipeline.

Variable fuzz : rapidfuzz.
Variable FIELD_WEIGHTS : dict Q.
Variable METHOD_WEIGHTS : dict Q.
Variable validate_via_npi_registry : pyval -> record.
Variable scrape_npino : pyval -> record.
Variable validate_via_google : pyval -> record.

(** The call of the vision model, taken as a function from the path to the
    dict it returns: the fields it read, or a dict with the key [error]. *)
Variable extract_with_vision_api : string -> record.

Definition extract_from_pdf (file_path : string) : list record :=
  let info := extract_with_vision_api file_path in
  if existsb (String.eqb "error") (keys info) then []
  else
    let provider : record :=
      [("npi", get_default info "NPI_Number" (Some ""));
       ("name", get_default info "Name" (Some ""));
       ("address", get_default info "Address" (Some ""));
       ("phone", get_default info "Phone" (Some ""));
       ("specialty", get_default info "Specialty" (Some ""))] in
    [provider].

(** The keys [process_providers] prints before it validates, in order. *)
Definition printed_keys : list string :=
  ["name"; "npi"; "address"; "phone"; "specialty"].

(** [process_providers]; an entry [{**provider, **result}] of its list is
    the pair of the provider and the report.  The exceptions of the sources
    themselves, which the [try] also catches, are outside the model. *)
Definition process_providers (providers : list record)
  : res (list (record * validation_report)) :=
  for_each providers
    (fun all_results provider =>
       _ <- subscript provider "name" ;;
       _ <- subscript provider "npi" ;;
       _ <- subscript provider "address" ;;
       _ <- subscript provider "phone" ;;
       _ <- subscript provider "specialty" ;;
       match
         run_validations fuzz FIELD_WEIGHTS METHOD_WEIGHTS
           validate_via_npi_registry scrape_npino validate_via_google provider
       with
       | Ok result => Ok (all_results ++ [(provider, result)])%list
       | Raise _ => Ok all_results
       end)
    [].

End Pipeline.

(** The first of the printed keys a provider lacks. *)
Definition first_missing_key (provider : record) : option string :=
  List.find
    (fun k => match get provider k with None => true | Some _ => false end)
    printed_keys.

(** ** Instances of the parameters, to run the callers *)

Module Sample.

(** Sources that return the records of the demo of [confidence.py]. *)
Definition registry (npi : pyval) : record := Demo.npireg.
Definition scraper (npi : pyval) : record := Demo.web.
Definition geocoder (address : pyval) : record := Demo.maps.

(** A vision call that read three fields of the document. *)
Definition vision (file_path : string) : record :=
  [("Name", Some "Kevin Bradley Rothchild");
   ("NPI_Number", Some "1003000480");
   ("Credentials", None);
   ("Status", None);
   ("Address", None);
   ("Phone", Some "(303) 493-7000");
   ("Specialty", None);
   ("License_Number", None);
   ("Email", None)].

(** [str.upper] on the ASCII letters; other characters are left as they
    are. *)
Definition upper_char (ch : ascii) : ascii :=
  let n := N_of_ascii ch in
  if ((97 <=? n) && (n <=? 122))%N then ascii_of_N (n - 32) else ch.

Fixpoint upper (s : string) : string :=
  match s with
  | EmptyString => EmptyString
  | String ch s' => String (upper_char ch) (upper s')
  end.

(** A validation with the language model that reports nothing. *)
Definition enhanced (csv_dict npi_data : record) : list string * list string :=
  ([], []).

(** A field weight table with a sixth key, and a claimed record with it. *)
Definition field_weights_with_email : dict Q :=
  (Defaults.FIELD_WEIGHTS ++ [("email", 0.10)])%list.

Definition extracted_with_email : record :=
  (Demo.extracted ++ [("email", Some "kevin@example.org")])%list.

(** A row of the CSV file. *)
Definition csv_row : record :=
  [("npi_number", Some "1003000480"); ("first_name", Some "Kevin");
   ("last_name", Some "Rothchild"); ("Credential", Some "MD");
   ("City", Some "Aurora"); ("State", Some "CO"); ("Zip", Some "80012");
   ("Phone", Some "303-493-7000")].

Definition mailing : record :=
  [("address_purpose", Some "MAILING"); ("address_1", Some "PO Box 12");
   ("city", Some "Denver")].

Definition location : record :=
  [("address_purpose", Some "LOCATION");
   ("address_1", Some "1550 S Potomac St Ste 100"); ("city", Some "Aurora");
   ("state", Some "CO"); ("postal_code", Some "80012");
   ("telephone_number", Some "303-493-7000")].

Definition pediatrics : ProviderInfo.taxonomy :=
  {| ProviderInfo.primary := Some true;
     ProviderInfo.tax_fields :=
       [("desc", Some "Pediatrics"); ("license", Some "DR.0012345")] |}.

Definition surgery : ProviderInfo.taxonomy :=
  {| ProviderInfo.primary := Some false;
     ProviderInfo.tax_fields := [("desc", Some "Surgery")] |}.

Definition registry_result : ProviderInfo.provider :=
  {| ProviderInfo.basic :=
       Some [("first_name", Some "Kevin"); ("last_name", Some "Rothchild");
             ("credential", Some "MD"); ("status", Some "A")];
     ProviderInfo.addresses := Some [mailing; location];
     ProviderInfo.taxonomies := Some [surgery; pediatrics] |}.

(** Two results of the loop of [validate_providers_from_csv]. *)
Definition matched : NpiMatcher.validation_result :=
  {| NpiMatcher.provider_id := 1;
     NpiMatcher.csv_data := csv_row;
     NpiMatcher.npi_data := NpiMatcher.get_npi_provider_data (NpiMatcher.Found registry_result);
     NpiMatcher.mismatches := [];
     NpiMatcher.ai_insights := [];
     NpiMatcher.match_status := Some "PERFECT_MATCH";
     NpiMatcher.ai_enabled := false |}.

Definition mismatched : NpiMatcher.validation_result :=
  {| NpiMatcher.provider_id := 2;
     NpiMatcher.csv_data := csv_row;
     NpiMatcher.npi_data := NpiMatcher.get_npi_provider_data (NpiMatcher.Found registry_result);
     NpiMatcher.mismatches :=
       ["CITY: CSV 'Denver' vs NPI 'Aurora'"; "STATE: CSV 'NY' vs NPI 'CO'";
        "CITY: CSV 'Boulder' vs NPI 'Aurora'"];
     NpiMatcher.ai_insights := ["AI confirmed addresses represent same location"];
     NpiMatcher.match_status := Some "3_MISMATCHES";
     NpiMatcher.ai_enabled := true |}.

Definition not_found : NpiMatcher.validation_result :=
  {| NpiMatcher.provider_id := 3;
     NpiMatcher.csv_data := csv_row;
     NpiMatcher.npi_data := NpiMatcher.get_npi_provider_data NpiMatcher.NoResult;
     NpiMatcher.mismatches := [];
     NpiMatcher.ai_insights := [];
     NpiMatcher.match_status := Some "NOT_FOUND";
     NpiMatcher.ai_enabled := true |}.

End Sample.

(** * Facts about the Python model *)

Module PyStrFacts.
Import PyStr.

Lemma nonempty_true s : nonempty s = true <-> s <> "".
Proof. destruct s; simpl; split; congruence. Qed.

Lemma filter_idem p s : filter p (filter p s) = filter p s.
Proof.
  induction s as [|ch s IH]; simpl; [reflexivity|].
  destruct (p ch) eqn:E; simpl; [rewrite E, IH|]; auto.
Qed.

End PyStrFacts.

Module PyDictFacts.
Section Facts.
Context {V : Type}.
Implicit Types (d : dict V) (k : string) (v : V).

Lemma get_set_eq d k v : get (set d k v) k = Some v.
Proof.
  induction d as [|[k' v'] d IH]; simpl.
  - now rewrite String.eqb_refl.
  - destruct (String.eqb k k') eqn:E; simpl; rewrite E; auto.
Qed.

Lemma get_set_ne d k k' v : k <> k' -> get (set d k v) k' = get d k'.
Proof.
  intros Hne. induction d as [|[k0 v0] d IH]; simpl.
  - destruct (String.eqb k' k) eqn:E; auto.
    apply String.eqb_eq in E. congruence.
  - destruct (String.eqb k k0) eqn:E; simpl.
    + apply String.eqb_eq in E. subst k0.
      destruct (String.eqb k' k) eqn:E'; auto.
      apply String.eqb_eq in E'. congruence.
    + now rewrite IH.
Qed.

Lemma keys_set_in d k v k' : In k' (keys (set d k v)) <-> k' = k \/ In k' (keys d).
Proof.
  induction d as [|[k0 v0] d IH]; simpl.
  - intuition.
  - destruct (String.eqb k k0) eqn:E; simpl.
    + apply String.eqb_eq in E. subst. intuition.
    + rewrite IH. intuition.
Qed.

Lemma get_in d k v : get d k = Some v -> In (k, v) d.
Proof.
  induction d as [|[k0 v0] d IH]; simpl; [discriminate|].
  destruct (String.eqb k k0) eqn:E.
  - apply String.eqb_eq in E. intros [= ->]. subst. now left.
  - intros H. right. auto.
Qed.

Lemma get_none_notin d k : get d k = None <-> ~ In k (keys d).
Proof.
  induction d as [|[k0 v0] d IH]; simpl.
  - intuition.
  - destruct (String.eqb k k0) eqn:E.
    + apply String.eqb_eq in E. subst. split; [discriminate|intuition].
    + apply String.eqb_neq in E. rewrite IH. intuition congruence.
Qed.

(** Setting a fresh key appends the binding. *)
Lemma set_fresh d k v : ~ In k (keys d) -> set d k v = (d ++ [(k, v)])%list.
Proof.
  induction d as [|[k0 v0] d IH]; simpl; intros Hn; [reflexivity|].
  destruct (String.eqb k k0) eqn:E.
  - apply String.eqb_eq in E. subst. intuition.
  - f_equal. apply IH. intuition.
Qed.

(** Every binding of [set d k v] is the new one or an old one. *)
Lemma in_set d k v kv : In kv (set d k v) -> kv = (k, v) \/ In kv d.
Proof.
  induction d as [|[k0 v0] d IH]; simpl.
  - intuition.
  - destruct (String.eqb k k0) eqn:E; simpl.
    + apply String.eqb_eq in E. subst. intuition.
    + intros [H|H]; [auto|]. destruct (IH H); auto.
Qed.

(** A dict stays a dict under assignment. *)
Lemma set_wf d k v : wf d -> wf (set d k v).
Proof.
  unfold wf. induction d as [|[k0 v0] d IH]; simpl; intros Hnd.
  - constructor; [intros []|constructor].
  - inversion Hnd as [|? ? Hk Hnd']; subst.
    destruct (String.eqb k k0) eqn:E; simpl.
    + constructor; assumption.
    + constructor; [|now apply IH].
      intros Hin. apply keys_set_in in Hin. destruct Hin as [->|Hin].
      * now rewrite String.eqb_refl in E.
      * contradiction.
Qed.

End Facts.
End PyDictFacts.

Module PyNumFacts.
Import PyNum.

Lemma ltb_spec a b : reflect (a < b) (ltb a b).
Proof.
  unfold ltb. destruct (Qle_bool b a) eqn:E; constructor.
  - apply Qle_bool_iff in E. lra.
  - apply Qnot_le_lt. intros H. apply Qle_bool_iff in H. congruence.
Qed.

Lemma clamp_range s : 0 <= max 0 (min 100 s) <= 100.
Proof.
  unfold max, min.
  destruct (ltb_spec s 100);
    match goal with |- context [ltb 0 ?x] => destruct (ltb_spec 0 x) end; lra.
Qed.

Lemma clamp_id s : 0 <= s <= 100 -> max 0 (min 100 s) == s.
Proof.
  intros H. unfold max, min.
  destruct (ltb_spec s 100);
    match goal with |- context [ltb 0 ?x] => destruct (ltb_spec 0 x) end; lra.
Qed.

Lemma div_ok a b : ~ b == 0 -> div a b = Ok (a / b).
Proof.
  intros Hb. unfold div. destruct (Qeq_bool b 0) eqn:E; [|reflexivity].
  apply Qeq_bool_eq in E. contradiction.
Qed.

Lemma div_zero a b : b == 0 -> div a b = Raise ZeroDivisionError.
Proof. intros Hb. unfold div. now rewrite (Qeq_eq_bool _ _ Hb). Qed.

(** A quotient of a bounded numerator stays in the bounds. *)
Lemma quotient_range n d b : 0 < d -> 0 <= n -> n <= b * d -> 0 <= n / d <= b.
Proof.
  intros Hd Hn Hb. split.
  - apply Qle_shift_div_l; lra.
  - apply Qle_shift_div_r; lra.
Qed.

Lemma round_half_even_floor q :
  (Qfloor q <= round_half_even q <= Qfloor q + 1)%Z.
Proof.
  unfold round_half_even.
  destruct (Qcompare _ _); [destruct (Z.even _)| |]; lia.
Qed.

(** The rounded integer is within one half of the argument. *)
Lemma round_half_even_near q :
  q - (1 # 2) <= inject_Z (round_half_even q) <= q + (1 # 2).
Proof.
  unfold round_half_even.
  pose proof (Qfloor_le q) as Hlo. pose proof (Qlt_floor q) as Hhi.
  rewrite inject_Z_plus in Hhi. change (inject_Z 1) with 1 in Hhi.
  destruct (Qcompare (q - inject_Z (Qfloor q)) (1 # 2)) eqn:E.
  - apply Qeq_alt in E.
    destruct (Z.even _); [|rewrite inject_Z_plus; change (inject_Z 1) with 1];
      lra.
  - apply Qlt_alt in E. lra.
  - apply Qgt_alt in E. rewrite inject_Z_plus. change (inject_Z 1) with 1. lra.
Qed.

Lemma round_half_even_Z k : round_half_even (inject_Z k) = k.
Proof.
  unfold round_half_even. rewrite Qfloor_Z.
  replace (Qcompare (inject_Z k - inject_Z k) (1 # 2)) with Lt; [reflexivity|].
  symmetry. rewrite <- Qlt_alt. unfold Qminus. now rewrite Qplus_opp_r.
Qed.

Lemma round_half_even_range q (a b : Z) :
  inject_Z a <= q <= inject_Z b -> (a <= round_half_even q <= b)%Z.
Proof.
  intros [Ha Hb].
  pose proof (Qfloor_resp_le _ _ Ha) as Hfa. rewrite Qfloor_Z in Hfa.
  pose proof (Qfloor_resp_le _ _ Hb) as Hfb. rewrite Qfloor_Z in Hfb.
  pose proof (round_half_even_floor q) as Hr.
  split; [lia|].
  destruct (Z.eq_dec (Qfloor q) b) as [Heq|Hne]; [|lia].
  unfold round_half_even. pose proof (Qfloor_le q) as Hlo. rewrite Heq in *.
  replace (Qcompare (q - inject_Z b) (1 # 2)) with Lt; [lia|].
  symmetry. rewrite <- Qlt_alt. lra.
Qed.

#[export] Instance round_half_even_Proper : Proper (Qeq ==> eq) round_half_even.
Proof.
  intros x y Hxy. unfold round_half_even.
  rewrite (Qfloor_comp _ _ Hxy).
  replace (Qcompare (x - inject_Z (Qfloor y)) (1 # 2))
    with (Qcompare (y - inject_Z (Qfloor y)) (1 # 2)); [reflexivity|].
  apply Qcompare_comp; [rewrite Hxy|]; reflexivity.
Qed.

#[export] Instance round2_Proper : Proper (Qeq ==> eq) round2.
Proof. intros x y Hxy. unfold round2. now rewrite Hxy. Qed.

Lemma round2_two_decimals x : two_decimals (round2 x).
Proof. exists (round_half_even (x * 100)). reflexivity. Qed.

(** [round(x, 2)] leaves a value of two decimals as it is. *)
Lemma round2_fixes x : two_decimals x -> round2 x == x.
Proof.
  intros [k Hk]. unfold round2.
  assert (Hx : x * 100 == inject_Z k).
  { rewrite Hk. unfold Qeq, inject_Z, Qmult. simpl. lia. }
  rewrite Hx, round_half_even_Z. now symmetry.
Qed.

Lemma round2_idem x : round2 (round2 x) == round2 x.
Proof. apply round2_fixes, round2_two_decimals. Qed.

Lemma round2_range x : 0 <= x <= 100 -> 0 <= round2 x <= 100.
Proof.
  intros Hx. unfold round2.
  assert (H : (0 <= round_half_even (x * 100) <= 10000)%Z).
  { apply round_half_even_range. change (inject_Z 0) with 0.
    change (inject_Z 10000) with 10000. lra. }
  unfold Qle. simpl. lia.
Qed.

(** Rounding moves a value by at most half a hundredth. *)
Lemma round2_near x : x - (1 # 200) <= round2 x <= x + (1 # 200).
Proof.
  pose proof (round_half_even_near (x * 100)) as H.
  assert (E : round2 x == inject_Z (round_half_even (x * 100)) / 100).
  { unfold round2. rewrite (Qmake_Qdiv _ 100). reflexivity. }
  rewrite E. split.
  - apply Qle_shift_div_l; lra.
  - apply Qle_shift_div_r; lra.
Qed.

End PyNumFacts.

(** * The field comparator *)

Section ComparatorFacts.

Variable fuzz : rapidfuzz.

Local Abbreviation compare := (field_confidence_for_method fuzz).

(** Every value the comparator returns is clamped. *)
Lemma compare_range field a b : 0 <= compare field a b <= 100.
Proof. apply PyNumFacts.clamp_range. Qed.

Lemma compare_is_clamp field a b : exists s, compare field a b = clamp s.
Proof. unfold field_confidence_for_method. eexists. reflexivity. Qed.

Lemma truthy_digits s : digits_of s <> "" -> truthy (Some s) = true.
Proof. unfold digits_of. destruct s; simpl; congruence. Qed.

Lemma falsy_cases v : truthy v = false <-> v = None \/ v = Some "".
Proof.
  destruct v as [[|c s]|]; simpl; split; intros H; auto; try discriminate.
  destruct H as [H|H]; discriminate.
Qed.

Lemma similarities_of_missing a b :
  truthy a = false \/ truthy b = false ->
  name_similarity fuzz a b = 0 /\ address_similarity fuzz a b = 0 /\
  specialty_similarity fuzz a b = 0 /\ phone_similarity fuzz a b = 0 /\
  npi_similarity a b = 0.
Proof.
  intros H.
  assert (E : negb (truthy a) || negb (truthy b) = true).
  { destruct H as [-> | ->]; simpl; auto using orb_true_r. }
  unfold name_similarity, address_similarity, specialty_similarity,
    phone_similarity, npi_similarity.
  rewrite E. repeat split.
Qed.

Lemma compare_of_missing field a b :
  truthy a = false \/ truthy b = false -> compare field a b = 0.
Proof.
  intros H.
  destruct (similarities_of_missing a b H) as (Hn & Ha & Hs & Hp & Hi).
  unfold field_confidence_for_method.
  rewrite Hn, Ha, Hs, Hp, Hi.
  repeat match goal with |- context [String.eqb ?x ?y] =>
    destruct (String.eqb x y) end; reflexivity.
Qed.

(** C4. A missing value on either side gives similarity 0: for every field
    name, tracked or not, and every value [v], comparing a null or empty
    value with [v] returns 0 and comparing [v] with a null or empty value
    returns 0. *)
Theorem missing_value_floor (field : string) (missing v : pyval) :
  missing = None \/ missing = Some "" ->
  compare field missing v = 0 /\ compare field v missing = 0.
Proof.
  intros H. apply falsy_cases in H.
  split; apply compare_of_missing; auto.
Qed.

(** C5. The npi comparison is exact or nothing: on the digits of both values
    the result is 100 when the two digit strings are equal and not empty and
    0 in every other case, so it is never strictly between 0 and 100. *)
Theorem npi_exact_or_nothing (a b : pyval) :
  let da := digits_of (str_of a) in
  let db := digits_of (str_of b) in
  (da <> "" /\ da = db -> compare "npi" a b = 100) /\
  (da = "" \/ da <> db -> compare "npi" a b = 0) /\
  (compare "npi" a b = 0 \/ compare "npi" a b = 100).
Proof.
  intros da db.
  assert (Hyes : da <> "" /\ da = db -> compare "npi" a b = 100).
  { intros [Hne Heq].
    assert (Ta : truthy a = true).
    { destruct a as [s|]; [now apply truthy_digits | now elim Hne]. }
    assert (Tb : truthy b = true).
    { destruct b as [s|].
      - apply truthy_digits. intros E. apply Hne. rewrite Heq. exact E.
      - elim Hne. rewrite Heq. reflexivity. }
    unfold field_confidence_for_method, npi_similarity. simpl String.eqb.
    rewrite Ta, Tb. cbv zeta. fold da db.
    rewrite <- Heq, String.eqb_refl.
    apply PyStrFacts.nonempty_true in Hne. rewrite Hne. reflexivity. }
  assert (Hno : da = "" \/ da <> db -> compare "npi" a b = 0).
  { intros H.
    unfold field_confidence_for_method, npi_similarity. simpl String.eqb.
    destruct (negb (truthy a) || negb (truthy b)); [reflexivity|].
    cbv zeta. fold da db.
    destruct H as [H|H].
    - rewrite H. reflexivity.
    - apply String.eqb_neq in H. rewrite H, andb_false_r. reflexivity. }
  split; [exact Hyes|]. split; [exact Hno|].
  destruct (string_dec da "") as [E|E]; [left; auto|].
  destruct (string_dec da db) as [E'|E']; [right|left]; auto.
Qed.

(** C3. The phone comparison: two non-empty strings whose digits are not
    empty and equal compare to exactly 100 (the exact-match bonus is capped);
    when the digit strings differ, the result is the ratio of the two digit
    strings, clamped, hence in [0,100]. *)
Theorem phone_exact_and_partial (a b : string) :
  a <> "" -> b <> "" -> digits_of a <> "" -> digits_of b <> "" ->
  (digits_of a = digits_of b -> compare "phone" (Some a) (Some b) = 100) /\
  (digits_of a <> digits_of b ->
   compare "phone" (Some a) (Some b)
     = clamp (ratio fuzz (digits_of a) (digits_of b)) /\
   0 <= compare "phone" (Some a) (Some b) <= 100).
Proof.
  intros Ha Hb Hda Hdb.
  apply PyStrFacts.nonempty_true in Ha, Hb, Hda, Hdb.
  unfold field_confidence_for_method, phone_similarity. simpl String.eqb.
  simpl truthy. rewrite Ha, Hb. simpl str_of. cbv zeta.
  rewrite Hda, Hdb. simpl negb. simpl orb. cbv iota.
  split.
  - intros E. rewrite E, String.eqb_refl. reflexivity.
  - intros E. apply String.eqb_neq in E. rewrite E.
    split; [reflexivity|]. apply PyNumFacts.clamp_range.
Qed.

End ComparatorFacts.

(** * Weighted averages and loops *)

Module AverageFacts.

Lemma weight_of_nonneg table k : nonneg_weights table -> 0 <= weight_of table k.
Proof.
  unfold weight_of, get_default. intros H.
  destruct (get table k) as [w|] eqn:E; [|lra].
  apply PyDictFacts.get_in in E.
  unfold nonneg_weights in H. rewrite Forall_forall in H.
  apply (H (k, w) E).
Qed.

Lemma weight_of_absent table k : ~ In k (keys table) -> weight_of table k = 0.
Proof.
  intros H. apply PyDictFacts.get_none_notin in H.
  unfold weight_of, get_default. now rewrite H.
Qed.

Lemma wsum_app xs ys : wsum (xs ++ ys) == wsum xs + wsum ys.
Proof.
  induction xs as [|p xs IH]; simpl; [lra|]. rewrite IH. lra.
Qed.

Lemma wtotal_app xs ys : wtotal (xs ++ ys) == wtotal xs + wtotal ys.
Proof.
  induction xs as [|p xs IH]; simpl; [lra|]. rewrite IH. lra.
Qed.

(** Values in [0,100] with non-negative weights: the weighted sum is
    between 0 and 100 times the total weight. *)
Lemma wsum_range xs :
  Forall (fun p => in_range (fst p) /\ 0 <= snd p) xs ->
  0 <= wtotal xs /\ 0 <= wsum xs <= 100 * wtotal xs.
Proof.
  induction 1 as [|[c w] xs [[Hc0 Hc1] Hw] _ IH]; simpl in *; [lra|].
  destruct IH as (Ht & Hs0 & Hs1).
  assert (0 <= c * w) by (apply Qmult_le_0_compat; assumption).
  assert (0 <= (100 - c) * w) by (apply Qmult_le_0_compat; lra).
  lra.
Qed.

Lemma weighted_average_range xs :
  Forall (fun p => in_range (fst p) /\ 0 <= snd p) xs ->
  in_range (weighted_average xs).
Proof.
  intros H. destruct (wsum_range xs H) as (Ht & Hs0 & Hs1).
  unfold weighted_average, in_range.
  destruct (Qeq_bool (wtotal xs) 0) eqn:E; [lra|].
  apply Qeq_bool_neq in E.
  apply PyNumFacts.quotient_range; lra.
Qed.

(** All values 0: the average is 0 whatever the weights. *)
Lemma weighted_average_zero xs :
  Forall (fun p => fst p == 0) xs -> weighted_average xs == 0.
Proof.
  intros H.
  assert (Hs : wsum xs == 0).
  { induction H as [|[c w] xs Hc _ IH]; simpl in *; [reflexivity|].
    rewrite IH, Hc. lra. }
  unfold weighted_average. destruct (Qeq_bool (wtotal xs) 0); [reflexivity|].
  rewrite Hs. unfold Qdiv. lra.
Qed.

(** Dividing every weight by the total leaves the average as it is and
    makes the weights sum to 1. *)
Lemma wsum_scale xs t :
  wsum (map (fun p => (fst p, snd p / t)) xs) == wsum xs / t.
Proof.
  induction xs as [|[c w] xs IH]; simpl.
  - unfold Qdiv. lra.
  - rewrite IH. unfold Qdiv. lra.
Qed.

Lemma wtotal_scale xs t :
  wtotal (map (fun p => (fst p, snd p / t)) xs) == wtotal xs / t.
Proof.
  induction xs as [|[c w] xs IH]; simpl.
  - unfold Qdiv. lra.
  - rewrite IH. unfold Qdiv. lra.
Qed.

Lemma renormalize_total xs : ~ wtotal xs == 0 -> wtotal (renormalize xs) == 1.
Proof.
  intros H. unfold renormalize. rewrite wtotal_scale. now field.
Qed.

Lemma renormalize_sum xs : wsum (renormalize xs) == wsum xs / wtotal xs.
Proof. unfold renormalize. apply wsum_scale. Qed.

(** The guarded quotient of the loops respects [==]. *)
Lemma guarded_quotient n d xs :
  n == wsum xs -> d == wtotal xs ->
  (if negb (Qeq_bool d 0) then n / d else 0) == weighted_average xs.
Proof.
  intros Hn Hd. unfold weighted_average.
  rewrite <- (Qeqb_comp _ _ Hd 0 0 (Qeq_refl 0)).
  destruct (Qeq_bool d 0); simpl; [reflexivity|].
  now rewrite Hn, Hd.
Qed.

End AverageFacts.

(** * Dicts built by loops *)

Module LoopFacts.

Section Build.
Context {V : Type}.
Variable g : string -> V.

(** A loop [for f in fs: d[f] = g(f)]. *)
Lemma build_get_notin fs (d0 : dict V) k :
  ~ In k fs -> get (fold_left (fun d f => set d f (g f)) fs d0) k = get d0 k.
Proof.
  revert d0. induction fs as [|f fs IH]; intros d0 Hk; simpl; [reflexivity|].
  simpl in Hk. rewrite IH by tauto.
  apply PyDictFacts.get_set_ne. intros E. apply Hk. now left.
Qed.

Lemma build_get_in fs (d0 : dict V) k :
  In k fs -> get (fold_left (fun d f => set d f (g f)) fs d0) k = Some (g k).
Proof.
  revert d0. induction fs as [|f fs IH]; intros d0 Hin; [destruct Hin|].
  simpl. destruct (in_dec string_dec k fs) as [Hk|Hk]; [now apply IH|].
  destruct Hin as [->|Hin]; [|contradiction].
  rewrite build_get_notin by assumption.
  apply PyDictFacts.get_set_eq.
Qed.

Lemma build_in fs (d0 : dict V) k v :
  In (k, v) (fold_left (fun d f => set d f (g f)) fs d0) ->
  In (k, v) d0 \/ (In k fs /\ v = g k).
Proof.
  revert d0. induction fs as [|f fs IH]; intros d0 H; simpl in *; [auto|].
  destruct (IH _ H) as [H1|[H1 H2]]; [|tauto].
  destruct (PyDictFacts.in_set _ _ _ _ H1) as [E|E]; [|auto].
  injection E as -> ->. right. auto.
Qed.

Lemma build_keys fs (d0 : dict V) k :
  In k (keys (fold_left (fun d f => set d f (g f)) fs d0)) <->
  In k (keys d0) \/ In k fs.
Proof.
  revert d0. induction fs as [|f fs IH]; intros d0; simpl; [tauto|].
  rewrite IH, PyDictFacts.keys_set_in. intuition.
Qed.

End Build.

Section BuildItems.
Context {A V : Type}.
Variable h : A -> V.

(** A loop [for k, x in l.items(): d[k] = h(x)] over a dict [l]. *)
Lemma build_items_map (l : dict A) (d0 : dict V) :
  wf l -> (forall k, In k (keys l) -> ~ In k (keys d0)) ->
  fold_left (fun d '(k, x) => set d k (h x)) l d0
  = (d0 ++ map (fun item => (fst item, h (snd item))) l)%list.
Proof.
  unfold wf. revert d0. induction l as [|[k x] l IH]; intros d0 Hnd Hfresh; simpl.
  - now rewrite app_nil_r.
  - inversion Hnd as [|? ? Hk Hnd']; subst.
    rewrite PyDictFacts.set_fresh by (apply Hfresh; now left).
    rewrite IH; [now rewrite <- app_assoc|assumption|].
    intros k' Hk' Hin. unfold keys in Hin. rewrite map_app in Hin.
    apply in_app_or in Hin. destruct Hin as [Hin|[<-|[]]].
    + apply (Hfresh k'); [now right|exact Hin].
    + contradiction.
Qed.

Lemma build_items_in (l : dict A) (d0 : dict V) k v :
  In (k, v) (fold_left (fun d '(k, x) => set d k (h x)) l d0) ->
  In (k, v) d0 \/ exists x, In (k, x) l /\ v = h x.
Proof.
  revert d0. induction l as [|[k0 x0] l IH]; intros d0 H; simpl in *; [auto|].
  destruct (IH _ H) as [H1|(x & Hx & Hv)].
  - destruct (PyDictFacts.in_set _ _ _ _ H1) as [E|E]; [|auto].
    injection E as -> ->. right. exists x0. auto.
  - right. exists x. auto.
Qed.

End BuildItems.

(** A loop whose body never raises is a fold. *)
Lemma for_each_pure {A S : Type} (P : A -> Prop) (body : S -> A -> res S)
    (pure : S -> A -> S) xs s :
  (forall s x, P x -> body s x = Ok (pure s x)) -> Forall P xs ->
  for_each xs body s = Ok (fold_left pure xs s).
Proof.
  intros Hbody HP. revert s.
  induction HP as [|x xs Hx _ IH]; intros s; simpl; [reflexivity|].
  rewrite (Hbody s x Hx). simpl. apply IH.
Qed.

End LoopFacts.

(** * The scoring functions as weighted averages *)

Section ScoringFacts.

Variable fuzz : rapidfuzz.
Variable FIELD_WEIGHTS : dict Q.
Variable METHOD_WEIGHTS : dict Q.

Local Abbreviation compare := (field_confidence_for_method fuzz).
Local Abbreviation tracked := (keys FIELD_WEIGHTS).

(** ** The method scorer *)

Lemma method_score_loop ext mr fs bd0 n0 d0 :
  exists n d,
    fold_left (method_score_step fuzz FIELD_WEIGHTS ext mr) fs (bd0, n0, d0)
    = (fold_left
         (fun b f =>
            set b f (PyNum.round2 (compare f (get_val ext f) (get_val mr f))))
         fs bd0, n, d)
    /\ n == n0 + wsum (field_pairs fuzz FIELD_WEIGHTS ext mr fs)
    /\ d == d0 + wtotal (field_pairs fuzz FIELD_WEIGHTS ext mr fs).
Proof.
  revert bd0 n0 d0. induction fs as [|f fs IH]; intros bd0 n0 d0.
  - exists n0, d0. simpl. repeat split; lra.
  - simpl fold_left.
    destruct (IH (set bd0 f (PyNum.round2 (compare f (get_val ext f) (get_val mr f))))
                 (n0 + compare f (get_val ext f) (get_val mr f)
                       * get_default FIELD_WEIGHTS f 0)
                 (d0 + get_default FIELD_WEIGHTS f 0))
      as (n & d & E & Hn & Hd).
    exists n, d. split; [exact E|].
    simpl. unfold weight_of. rewrite Hn, Hd. split; lra.
Qed.

Lemma ltb_Qeq a b b' : b == b' -> PyNum.ltb a b = PyNum.ltb a b'.
Proof. intros H. unfold PyNum.ltb. now rewrite H. Qed.

Lemma compute_method_score_eq name ext mr fields :
  compute_method_score fuzz FIELD_WEIGHTS name ext mr fields
  = Ok (method_score_of fuzz FIELD_WEIGHTS ext mr (or_default fields tracked),
        breakdown_of fuzz ext mr (or_default fields tracked)).
Proof.
  unfold compute_method_score.
  change (match fields with None => tracked | Some fields0 => fields0 end)
    with (or_default fields tracked).
  cbv zeta.
  destruct (method_score_loop ext mr (or_default fields tracked) [] 0 0)
    as (n & d & E & Hn & Hd).
  rewrite E. rewrite Qplus_0_l in Hn, Hd.
  unfold method_score_of, breakdown_of.
  rewrite (ltb_Qeq 0 _ _ Hd).
  destruct (PyNumFacts.ltb_spec 0
              (wtotal (field_pairs fuzz FIELD_WEIGHTS ext mr
                         (or_default fields tracked)))) as [Hpos|Hneg].
  - rewrite PyNumFacts.div_ok by (rewrite Hd; lra).
    simpl. do 2 f_equal. apply PyNumFacts.round2_Proper. now rewrite Hn, Hd.
  - reflexivity.
Qed.

(** ** The aggregator *)

Lemma per_field_of_get ext r fs f :
  In f fs ->
  get (per_field_of fuzz ext r fs) f
  = Some (compare f (get_val ext f) (get_val r f)).
Proof.
  intros H. unfold per_field_of.
  apply (LoopFacts.build_get_in
           (fun f => compare f (get_val ext f) (get_val r f))); exact H.
Qed.

Lemma per_field_of_in ext r fs f c :
  In (f, c) (per_field_of fuzz ext r fs) ->
  In f fs /\ c = compare f (get_val ext f) (get_val r f).
Proof.
  intros H. unfold per_field_of in H.
  apply (LoopFacts.build_in
           (fun f => compare f (get_val ext f) (get_val r f))) in H.
  destruct H as [[]|H]; exact H.
Qed.

(** Every row of the matrix is the row of a method of [method_results]. *)
Lemma per_method_field_of_in ext mrs fs m row :
  In (m, row) (per_method_field_of fuzz ext mrs fs) ->
  exists r, In (m, r) mrs /\ row = per_field_of fuzz ext r fs.
Proof.
  intros H. unfold per_method_field_of, items in H.
  apply (LoopFacts.build_items_in (fun r => per_field_of fuzz ext r fs)) in H.
  destruct H as [[]|H]; exact H.
Qed.

(** On a dict, the matrix has one row per method, in the same order. *)
Lemma per_method_field_of_wf ext mrs fs :
  wf mrs ->
  per_method_field_of fuzz ext mrs fs
  = map (fun item => (fst item, per_field_of fuzz ext (snd item) fs)) mrs.
Proof.
  intros H. unfold per_method_field_of, items.
  rewrite (LoopFacts.build_items_map (fun r => per_field_of fuzz ext r fs));
    auto.
Qed.

Lemma combine_loop mw f rows n0 d0 :
  Forall (fun item => exists c, get (snd item) f = Some c) rows ->
  exists n d,
    for_each rows (combine_step mw f) (n0, d0) = Ok (n, d)
    /\ n == n0 + wsum (row_pairs mw rows f)
    /\ d == d0 + wtotal (row_pairs mw rows f).
Proof.
  intros H. revert n0 d0.
  induction H as [|[m row] rows [c Hc] _ IH]; intros n0 d0.
  - exists n0, d0. simpl. repeat split; lra.
  - simpl in Hc. simpl for_each. unfold combine_step at 1, subscript.
    rewrite Hc. simpl bind.
    destruct (IH (n0 + c * get_default mw m 0) (d0 + get_default mw m 0))
      as (n & d & E & Hn & Hd).
    exists n, d. split; [exact E|].
    assert (Hg : get_default row f 0 = c) by (unfold get_default; now rewrite Hc).
    simpl. rewrite Hg. unfold weight_of. rewrite Hn, Hd. split; lra.
Qed.

Lemma rows_complete ext mrs f :
  In f tracked ->
  Forall (fun item => exists c, get (snd item) f = Some c)
    (per_method_field_of fuzz ext mrs tracked).
Proof.
  intros Hf. apply Forall_forall. intros [m row] Hin.
  apply per_method_field_of_in in Hin. destruct Hin as (r & _ & ->).
  simpl. rewrite per_field_of_get by exact Hf. eauto.
Qed.

(** The guarded division of the aggregator never raises. *)
Lemma guarded_div n d :
  (if negb (Qeq_bool d 0) then PyNum.div n d else Ok 0)
  = Ok (if negb (Qeq_bool d 0) then n / d else 0).
Proof.
  destruct (Qeq_bool d 0) eqn:E; simpl; [reflexivity|].
  apply PyNumFacts.div_ok. now apply Qeq_bool_neq.
Qed.

Lemma compute_combined_eq ext mrs mw :
  compute_combined_field_confidences fuzz FIELD_WEIGHTS METHOD_WEIGHTS ext mrs mw
  = Ok (combined_of (or_default mw METHOD_WEIGHTS)
          (per_method_field_of fuzz ext mrs tracked) tracked,
        per_method_field_of fuzz ext mrs tracked).
Proof.
  unfold compute_combined_field_confidences.
  change (match mw with None => METHOD_WEIGHTS | Some w => w end)
    with (or_default mw METHOD_WEIGHTS).
  cbv zeta.
  rewrite (LoopFacts.for_each_pure (fun f => In f tracked) _
             (fun c f =>
                set c f
                  (PyNum.round2
                     (weighted_average
                        (row_pairs (or_default mw METHOD_WEIGHTS)
                           (per_method_field_of fuzz ext mrs tracked) f))))).
  - reflexivity.
  - intros c f Hf. unfold items.
    destruct (combine_loop (or_default mw METHOD_WEIGHTS) f _ 0 0
                (rows_complete ext mrs f Hf)) as (n & d & E & Hn & Hd).
    rewrite E. simpl bind. rewrite guarded_div. simpl bind.
    do 2 f_equal. apply PyNumFacts.round2_Proper.
    apply AverageFacts.guarded_quotient; [rewrite Hn|rewrite Hd]; lra.
  - apply Forall_forall. auto.
Qed.

(** ** The overall confidence *)

Lemma overall_loop fw cmb n0 d0 :
  exists n d,
    fold_left (overall_step fw) cmb (n0, d0) = (n, d)
    /\ n == n0 + wsum (overall_pairs fw cmb)
    /\ d == d0 + wtotal (overall_pairs fw cmb).
Proof.
  revert n0 d0. induction cmb as [|[f c] cmb IH]; intros n0 d0.
  - exists n0, d0. simpl. repeat split; lra.
  - simpl fold_left.
    destruct (IH (n0 + c * get_default fw f 0) (d0 + get_default fw f 0))
      as (n & d & E & Hn & Hd).
    exists n, d. split; [exact E|].
    simpl. unfold weight_of. rewrite Hn, Hd. split; lra.
Qed.

Lemma compute_overall_eq cmb fw :
  compute_overall_confidence FIELD_WEIGHTS cmb fw
  = Ok (PyNum.round2
          (weighted_average (overall_pairs (or_default fw FIELD_WEIGHTS) cmb))).
Proof.
  unfold compute_overall_confidence.
  change (match fw with None => FIELD_WEIGHTS | Some w => w end)
    with (or_default fw FIELD_WEIGHTS).
  cbv zeta. unfold items.
  destruct (overall_loop (or_default fw FIELD_WEIGHTS) cmb 0 0)
    as (n & d & E & Hn & Hd).
  rewrite E. rewrite guarded_div. simpl bind.
  f_equal. apply PyNumFacts.round2_Proper.
  apply AverageFacts.guarded_quotient; [rewrite Hn|rewrite Hd]; lra.
Qed.

(** ** The pipeline *)

Lemma evaluate_all_eq ext mrs mw fw :
  let rows := per_method_field_of fuzz ext mrs tracked in
  let combined := combined_of (or_default mw METHOD_WEIGHTS) rows tracked in
  evaluate_all fuzz FIELD_WEIGHTS METHOD_WEIGHTS ext mrs mw fw
  = Ok (method_scores_of fuzz FIELD_WEIGHTS ext mrs, combined, rows,
        PyNum.round2
          (weighted_average
             (overall_pairs (or_default fw FIELD_WEIGHTS) combined))).
Proof.
  intros rows combined. unfold evaluate_all.
  rewrite (LoopFacts.for_each_pure (fun _ => True) _
             (fun ms '(m, r) => set ms m (summary_of fuzz FIELD_WEIGHTS ext r))).
  - simpl bind. rewrite compute_combined_eq. simpl bind.
    rewrite compute_overall_eq. reflexivity.
  - intros ms [m r] _. rewrite compute_method_score_eq. reflexivity.
  - apply Forall_forall. auto.
Qed.

End ScoringFacts.

(** * The aggregator counts every method *)

Section AggregatorClaims.

Variable fuzz : rapidfuzz.
Variable FIELD_WEIGHTS : dict Q.
Variable METHOD_WEIGHTS : dict Q.

Local Abbreviation compare := (field_confidence_for_method fuzz).
Local Abbreviation tracked := (keys FIELD_WEIGHTS).

Lemma get_map_wf {A V : Type} (h : A -> V) (l : dict A) k x :
  wf l -> In (k, x) l ->
  get (map (fun item => (fst item, h (snd item))) l) k = Some (h x).
Proof.
  unfold wf. induction l as [|[k0 x0] l IH]; intros Hnd Hin; [destruct Hin|].
  inversion Hnd as [|? ? Hk Hnd']; subst. simpl.
  destruct Hin as [E|Hin].
  - injection E as -> ->. now rewrite String.eqb_refl.
  - destruct (String.eqb k k0) eqn:E; [|now apply IH].
    apply String.eqb_eq in E. subst k0. elim Hk.
    change k with (fst (k, x)). apply in_map. exact Hin.
Qed.

(** On a dict of method results, the pairs read off the matrix are the
    pairs of the methods. *)
Lemma row_pairs_of_methods mw ext mrs f :
  wf mrs -> In f tracked ->
  row_pairs mw (per_method_field_of fuzz ext mrs tracked) f
  = method_pairs fuzz mw ext mrs f.
Proof.
  intros Hwf Hf. rewrite per_method_field_of_wf by exact Hwf.
  unfold row_pairs, method_pairs. rewrite map_map.
  apply map_ext. intros [m r]. simpl.
  unfold get_default. now rewrite per_field_of_get.
Qed.

(** C1, as the code has it. For every tracked field, the combined confidence
    is the weighted average (rounded to two decimals) of the similarities of
    ALL the methods of [method_results], normalised by the sum of all their
    weights; a method whose value for the field is null takes part with
    similarity 0 and its full weight. *)
Theorem combined_is_average_over_all_methods ext mrs mw f :
  wf mrs -> In f tracked ->
  let weights := or_default mw METHOD_WEIGHTS in
  exists combined rows,
    compute_combined_field_confidences fuzz FIELD_WEIGHTS METHOD_WEIGHTS
      ext mrs mw = Ok (combined, rows)
    /\ get combined f
       = Some (PyNum.round2
                 (weighted_average (method_pairs fuzz weights ext mrs f)))
    /\ forall m r, In (m, r) mrs -> get_val r f = None ->
         In (0, weight_of weights m) (method_pairs fuzz weights ext mrs f).
Proof.
  intros Hwf Hf weights. rewrite compute_combined_eq.
  do 2 eexists. split; [reflexivity|]. split.
  - unfold combined_of.
    rewrite (LoopFacts.build_get_in
               (fun f => PyNum.round2
                           (weighted_average
                              (row_pairs weights
                                 (per_method_field_of fuzz ext mrs tracked) f))))
      by exact Hf.
    now rewrite row_pairs_of_methods.
  - intros m r Hin Hnull. unfold method_pairs.
    apply in_map_iff. exists (m, r). split; [|exact Hin].
    simpl. rewrite Hnull.
    rewrite (compare_of_missing fuzz f (get_val ext f) None) by (right; reflexivity).
    reflexivity.
Qed.

(** C9. The scorer and the aggregator go through the same comparator: for
    every method of [method_results] and every tracked field, the entry of
    the aggregator's matrix is the comparator's value, and the entry of the
    method's breakdown is that same value rounded to two decimals. *)
Theorem scorer_and_aggregator_agree ext mrs mw fw m r f :
  wf mrs -> In (m, r) mrs -> In f tracked ->
  exists scores combined rows overall row summary,
    evaluate_all fuzz FIELD_WEIGHTS METHOD_WEIGHTS ext mrs mw fw
      = Ok (scores, combined, rows, overall)
    /\ get rows m = Some row
    /\ get scores m = Some summary
    /\ get row f = Some (compare f (get_val ext f) (get_val r f))
    /\ get (breakdown summary) f
       = Some (PyNum.round2 (compare f (get_val ext f) (get_val r f))).
Proof.
  intros Hwf Hin Hf. rewrite evaluate_all_eq.
  exists (method_scores_of fuzz FIELD_WEIGHTS ext mrs).
  do 3 eexists.
  exists (per_field_of fuzz ext r tracked), (summary_of fuzz FIELD_WEIGHTS ext r).
  split; [reflexivity|]. repeat split.
  - rewrite per_method_field_of_wf by exact Hwf.
    apply (get_map_wf (fun r => per_field_of fuzz ext r tracked)); assumption.
  - unfold method_scores_of.
    rewrite (LoopFacts.build_items_map (summary_of fuzz FIELD_WEIGHTS ext))
      by auto.
    apply (get_map_wf (summary_of fuzz FIELD_WEIGHTS ext)); assumption.
  - now apply per_field_of_get.
  - simpl. unfold breakdown_of.
    apply (LoopFacts.build_get_in
             (fun f => PyNum.round2 (compare f (get_val ext f) (get_val r f))));
      exact Hf.
Qed.

End AggregatorClaims.

(** * Boundedness *)

Section Boundedness.

Variable fuzz : rapidfuzz.
Variable FIELD_WEIGHTS : dict Q.
Variable METHOD_WEIGHTS : dict Q.

Local Abbreviation compare := (field_confidence_for_method fuzz).
Local Abbreviation tracked := (keys FIELD_WEIGHTS).

Lemma field_pairs_ok fw ext mr fs :
  nonneg_weights fw ->
  Forall (fun p => in_range (fst p) /\ 0 <= snd p) (field_pairs fuzz fw ext mr fs).
Proof.
  intros Hw. unfold field_pairs. apply Forall_forall. intros p Hp.
  apply in_map_iff in Hp. destruct Hp as (f & <- & _). simpl. split.
  - apply compare_range.
  - now apply AverageFacts.weight_of_nonneg.
Qed.

Lemma method_score_of_range ext mr fs :
  nonneg_weights FIELD_WEIGHTS ->
  in_range (method_score_of fuzz FIELD_WEIGHTS ext mr fs).
Proof.
  intros Hw. unfold method_score_of. cbv zeta.
  apply PyNumFacts.round2_range.
  destruct (AverageFacts.wsum_range _ (field_pairs_ok FIELD_WEIGHTS ext mr fs Hw))
    as (Ht & Hs0 & Hs1).
  destruct (PyNumFacts.ltb_spec 0
              (wtotal (field_pairs fuzz FIELD_WEIGHTS ext mr fs))) as [Hpos|_].
  - apply PyNumFacts.quotient_range; assumption.
  - lra.
Qed.

Lemma breakdown_of_range ext mr fs : values_in_range (breakdown_of fuzz ext mr fs).
Proof.
  apply Forall_forall. intros [f v] Hin. unfold breakdown_of in Hin.
  apply (LoopFacts.build_in
           (fun f => PyNum.round2 (compare f (get_val ext f) (get_val mr f))))
    in Hin.
  destruct Hin as [[]|[_ ->]]. simpl.
  apply PyNumFacts.round2_range, compare_range.
Qed.

Lemma per_field_of_range ext r fs : values_in_range (per_field_of fuzz ext r fs).
Proof.
  apply Forall_forall. intros [f c] Hin.
  apply per_field_of_in in Hin. destruct Hin as [_ ->]. apply compare_range.
Qed.

Lemma get_default_range (row : dict Q) f :
  values_in_range row -> in_range (get_default row f 0).
Proof.
  intros H. unfold get_default. destruct (get row f) as [c|] eqn:E.
  - apply PyDictFacts.get_in in E.
    unfold values_in_range in H. rewrite Forall_forall in H. apply (H _ E).
  - unfold in_range. lra.
Qed.

Lemma row_pairs_ok mw ext mrs fs f :
  nonneg_weights mw ->
  Forall (fun p => in_range (fst p) /\ 0 <= snd p)
    (row_pairs mw (per_method_field_of fuzz ext mrs fs) f).
Proof.
  intros Hw. unfold row_pairs. apply Forall_forall. intros p Hp.
  apply in_map_iff in Hp. destruct Hp as ([m row] & <- & Hin). simpl.
  apply per_method_field_of_in in Hin. destruct Hin as (r & _ & ->). split.
  - apply get_default_range, per_field_of_range.
  - now apply AverageFacts.weight_of_nonneg.
Qed.

Lemma combined_of_range mw ext mrs fs :
  nonneg_weights mw ->
  values_in_range (combined_of mw (per_method_field_of fuzz ext mrs fs) fs).
Proof.
  intros Hw. apply Forall_forall. intros [f v] Hin. unfold combined_of in Hin.
  apply (LoopFacts.build_in
           (fun f => PyNum.round2
                       (weighted_average
                          (row_pairs mw (per_method_field_of fuzz ext mrs fs) f))))
    in Hin.
  destruct Hin as [[]|[_ ->]]. simpl.
  apply PyNumFacts.round2_range, AverageFacts.weighted_average_range.
  now apply row_pairs_ok.
Qed.

Lemma overall_range fw combined :
  nonneg_weights fw -> values_in_range combined ->
  in_range (PyNum.round2 (weighted_average (overall_pairs fw combined))).
Proof.
  intros Hw Hc.
  apply PyNumFacts.round2_range, AverageFacts.weighted_average_range.
  unfold overall_pairs. apply Forall_forall. intros p Hp.
  apply in_map_iff in Hp. destruct Hp as ([f c] & <- & Hin). simpl. split.
  - unfold values_in_range in Hc. rewrite Forall_forall in Hc. apply (Hc _ Hin).
  - now apply AverageFacts.weight_of_nonneg.
Qed.


End Boundedness.

(** * Normalisation, degenerate inputs, totality and rounding *)

Section ScoringClaims.

Variable fuzz : rapidfuzz.
Variable FIELD_WEIGHTS : dict Q.
Variable METHOD_WEIGHTS : dict Q.

Local Abbreviation compare := (field_confidence_for_method fuzz).
Local Abbreviation tracked := (keys FIELD_WEIGHTS).

Lemma round2_zero x : x == 0 -> PyNum.round2 x == 0.
Proof. intros H. rewrite (PyNumFacts.round2_Proper _ _ H). reflexivity. Qed.

(** A field outside the weight table changes neither sum. *)
Lemma method_score_of_untracked ext mr f fs :
  ~ In f tracked ->
  method_score_of fuzz FIELD_WEIGHTS ext mr (f :: fs)
  = method_score_of fuzz FIELD_WEIGHTS ext mr fs.
Proof.
  intros Hf. unfold method_score_of. cbv zeta.
  set (xs := field_pairs fuzz FIELD_WEIGHTS ext mr fs).
  assert (Hs : wsum (field_pairs fuzz FIELD_WEIGHTS ext mr (f :: fs)) == wsum xs).
  { simpl. rewrite (AverageFacts.weight_of_absent _ _ Hf). fold xs. lra. }
  assert (Ht : wtotal (field_pairs fuzz FIELD_WEIGHTS ext mr (f :: fs)) == wtotal xs).
  { simpl. rewrite (AverageFacts.weight_of_absent _ _ Hf). fold xs. lra. }
  apply PyNumFacts.round2_Proper.
  rewrite (ltb_Qeq 0 _ _ Ht).
  destruct (PyNum.ltb 0 (wtotal xs)); [|reflexivity].
  now rewrite Hs, Ht.
Qed.


(** C6. With no method at all the aggregator raises nothing: every tracked
    field gets the combined confidence 0, the overall confidence computed
    from those is 0, and so is the result of the pipeline. *)
Theorem no_methods_gives_zero ext mw fw :
  exists combined overall,
    compute_combined_field_confidences fuzz FIELD_WEIGHTS METHOD_WEIGHTS
      ext [] mw = Ok (combined, [])
    /\ (forall f, In f tracked -> exists c, get combined f = Some c /\ c == 0)
    /\ Forall (fun kv => snd kv == 0) combined
    /\ compute_overall_confidence FIELD_WEIGHTS combined fw = Ok overall
    /\ overall == 0
    /\ evaluate_all fuzz FIELD_WEIGHTS METHOD_WEIGHTS ext [] mw fw
       = Ok ([], combined, [], overall).
Proof.
  set (combined := combined_of (or_default mw METHOD_WEIGHTS) [] tracked).
  assert (Hall : Forall (fun kv => snd kv == 0) combined).
  { apply Forall_forall. intros [f v] Hin. unfold combined, combined_of in Hin.
    apply (LoopFacts.build_in
             (fun f => PyNum.round2
                         (weighted_average
                            (row_pairs (or_default mw METHOD_WEIGHTS) [] f))))
      in Hin.
    destruct Hin as [[]|[_ ->]]. reflexivity. }
  exists combined. eexists.
  split; [apply compute_combined_eq|]. split.
  { intros f Hf. eexists. split.
    - unfold combined, combined_of.
      apply (LoopFacts.build_get_in
               (fun f => PyNum.round2
                           (weighted_average
                              (row_pairs (or_default mw METHOD_WEIGHTS) [] f))));
        exact Hf.
    - reflexivity. }
  split; [exact Hall|]. split; [apply compute_overall_eq|]. split.
  - apply round2_zero, AverageFacts.weighted_average_zero.
    unfold overall_pairs. apply Forall_forall. intros p Hp.
    apply in_map_iff in Hp. destruct Hp as ([f c] & <- & Hin). simpl.
    rewrite Forall_forall in Hall. apply (Hall _ Hin).
  - rewrite evaluate_all_eq. reflexivity.
Qed.

(** C8, as the code has it. No weight table is rejected, before or during
    scoring: for every field weight table and method weight table, negative
    weights included, each scoring function returns a result and raises
    nothing. *)
Theorem no_weight_table_is_rejected name ext mr fields mrs mw combined fw :
  returns (compute_method_score fuzz FIELD_WEIGHTS name ext mr fields)
  /\ returns (compute_combined_field_confidences fuzz FIELD_WEIGHTS
                METHOD_WEIGHTS ext mrs mw)
  /\ returns (compute_overall_confidence FIELD_WEIGHTS combined fw)
  /\ returns (evaluate_all fuzz FIELD_WEIGHTS METHOD_WEIGHTS ext mrs mw fw).
Proof.
  unfold returns. repeat split.
  - rewrite compute_method_score_eq. eauto.
  - rewrite compute_combined_eq. eauto.
  - rewrite compute_overall_eq. eauto.
  - rewrite evaluate_all_eq. eauto.
Qed.

Lemma breakdown_of_two_decimals ext mr fs :
  values_two_decimals (breakdown_of fuzz ext mr fs).
Proof.
  apply Forall_forall. intros [f v] Hin. unfold breakdown_of in Hin.
  apply (LoopFacts.build_in
           (fun f => PyNum.round2 (compare f (get_val ext f) (get_val mr f))))
    in Hin.
  destruct Hin as [[]|[_ ->]]. apply PyNumFacts.round2_two_decimals.
Qed.

(** C10. Every number the engine returns as a result is a value of two
    decimals: each method score, each entry of a breakdown, each combined
    field confidence and the overall confidence.  The entries of the
    per-method per-field matrix are the comparator's values as they are. *)
Theorem outputs_have_two_decimals ext mrs mw fw :
  (forall name mr fields,
      exists score bd,
        compute_method_score fuzz FIELD_WEIGHTS name ext mr fields = Ok (score, bd)
        /\ PyNum.two_decimals score /\ values_two_decimals bd)
  /\ (forall combined fw',
        exists overall,
          compute_overall_confidence FIELD_WEIGHTS combined fw' = Ok overall
          /\ PyNum.two_decimals overall)
  /\ exists scores combined rows overall,
       evaluate_all fuzz FIELD_WEIGHTS METHOD_WEIGHTS ext mrs mw fw
         = Ok (scores, combined, rows, overall)
       /\ Forall (fun kv => PyNum.two_decimals (method_score (snd kv))
                            /\ values_two_decimals (breakdown (snd kv))) scores
       /\ values_two_decimals combined
       /\ PyNum.two_decimals overall
       /\ forall m row f c, In (m, row) rows -> In (f, c) row ->
            exists r, In (m, r) mrs
              /\ c = compare f (get_val ext f) (get_val r f).
Proof.
  split; [|split].
  - intros name mr fields. rewrite compute_method_score_eq.
    do 2 eexists. split; [reflexivity|]. split.
    + apply PyNumFacts.round2_two_decimals.
    + apply breakdown_of_two_decimals.
  - intros combined fw'. rewrite compute_overall_eq.
    eexists. split; [reflexivity|]. apply PyNumFacts.round2_two_decimals.
  - rewrite evaluate_all_eq. do 4 eexists. split; [reflexivity|].
    split; [|split; [|split]].
    + apply Forall_forall. intros [m v] Hin. unfold method_scores_of in Hin.
      apply (LoopFacts.build_items_in (summary_of fuzz FIELD_WEIGHTS ext)) in Hin.
      destruct Hin as [[]|(r & _ & ->)]. simpl. split.
      * apply PyNumFacts.round2_two_decimals.
      * apply breakdown_of_two_decimals.
    + apply Forall_forall. intros [f v] Hin. unfold combined_of in Hin.
      apply (LoopFacts.build_in
               (fun f => PyNum.round2
                           (weighted_average
                              (row_pairs (or_default mw METHOD_WEIGHTS)
                                 (per_method_field_of fuzz ext mrs tracked) f))))
        in Hin.
      destruct Hin as [[]|[_ ->]]. apply PyNumFacts.round2_two_decimals.
    + apply PyNumFacts.round2_two_decimals.
    + intros m row f c Hrow Hc.
      apply per_method_field_of_in in Hrow. destruct Hrow as (r & Hr & ->).
      apply per_field_of_in in Hc. destruct Hc as [_ ->].
      exists r. auto.
Qed.

End ScoringClaims.

(** * The engine on concrete records *)

Ltac solve_wf :=
  unfold wf; simpl;
  repeat (constructor; [simpl; intuition discriminate|]);
  constructor.

Ltac solve_nonneg :=
  unfold nonneg_weights; repeat constructor; simpl; unfold Qle; simpl; lia.

Local Abbreviation demo_combined :=
  (compute_combined_field_confidences indel_fuzz Defaults.FIELD_WEIGHTS
     Defaults.METHOD_WEIGHTS Demo.extracted Demo.methods None).

Lemma demo_methods_wf : wf Demo.methods.
Proof. solve_wf. Defined.

Lemma default_field_weights_nonneg : nonneg_weights Defaults.FIELD_WEIGHTS.
Proof. solve_nonneg. Defined.

Lemma default_method_weights_nonneg : nonneg_weights Defaults.METHOD_WEIGHTS.
Proof. solve_nonneg. Defined.

(** The examples of the specification. *)
Example npi_equal :
  field_confidence_for_method indel_fuzz "npi"
    (Some "1003000480") (Some "1003000480") = 100.
Proof. reflexivity. Qed.

Example npi_differs :
  field_confidence_for_method indel_fuzz "npi"
    (Some "1003000480") (Some "1003000481") = 0.
Proof. reflexivity. Qed.

Example phone_formats :
  field_confidence_for_method indel_fuzz "phone"
    (Some "(303) 493-7000") (Some "303-493-7000") = 100.
Proof. reflexivity. Qed.

(** On the demo of the source the geocode method has no specialty: the
    combined confidence of the field is 75, and the average over the two
    reporting methods would be 100. *)
Example demo_specialty :
  exists combined rows c,
    demo_combined = Ok (combined, rows)
    /\ get combined "specialty" = Some c /\ c == 75
    /\ reporting_average indel_fuzz Defaults.METHOD_WEIGHTS
         Demo.extracted Demo.methods "specialty" == 100.
Proof.
  rewrite compute_combined_eq. do 3 eexists.
  split; [reflexivity|]. split; [vm_compute; reflexivity|].
  split; vm_compute; reflexivity.
Qed.

(** An entry of the matrix that is not a value of two decimals. *)
Example matrix_entry_unrounded :
  field_confidence_for_method indel_fuzz "phone" (Some "12") (Some "1") == 200 # 3
  /\ ~ PyNum.two_decimals (200 # 3).
Proof.
  split; [vm_compute; reflexivity|].
  intros [k Hk]. unfold Qeq in Hk. simpl in Hk. lia.
Qed.

(** With the weights of [Skewed] the combined npi confidence is 200. *)
Example skewed_npi :
  exists combined rows c,
    compute_combined_field_confidences indel_fuzz Defaults.FIELD_WEIGHTS
      Defaults.METHOD_WEIGHTS Skewed.extracted Skewed.methods
      (Some Skewed.weights) = Ok (combined, rows)
    /\ get combined "npi" = Some c /\ c == 200.
Proof.
  rewrite compute_combined_eq. do 3 eexists.
  split; [reflexivity|]. split; vm_compute; reflexivity.
Qed.

(** C1 fails as stated: on the demo of the source the method silent on
    [specialty] is part of the denominator. *)
Lemma silent_method_is_counted :
  ~ excludes_silent_methods indel_fuzz Defaults.FIELD_WEIGHTS
      Defaults.METHOD_WEIGHTS Demo.extracted Demo.methods None.
Proof.
  intros (combined & rows & E & H).
  rewrite compute_combined_eq in E. injection E as <- <-.
  destruct (H "specialty") as (c & Hc & Hq).
  { simpl. tauto. }
  vm_compute in Hc. injection Hc as <-.
  vm_compute in Hq. discriminate Hq.
Qed.

Lemma combined_is_average_over_all_methods_witness :
  wf Demo.methods /\ In "specialty" (keys Defaults.FIELD_WEIGHTS)
  /\ exists combined rows,
       demo_combined = Ok (combined, rows)
       /\ get combined "specialty"
          = Some (PyNum.round2
                    (weighted_average
                       (method_pairs indel_fuzz Defaults.METHOD_WEIGHTS
                          Demo.extracted Demo.methods "specialty")))
       /\ In (0, weight_of Defaults.METHOD_WEIGHTS "google_maps")
            (method_pairs indel_fuzz Defaults.METHOD_WEIGHTS
               Demo.extracted Demo.methods "specialty").
Proof.
  assert (Hin : In "specialty" (keys Defaults.FIELD_WEIGHTS)) by (simpl; tauto).
  split; [exact demo_methods_wf|]. split; [exact Hin|].
  destruct (combined_is_average_over_all_methods indel_fuzz
              Defaults.FIELD_WEIGHTS Defaults.METHOD_WEIGHTS
              Demo.extracted Demo.methods None "specialty"
              demo_methods_wf Hin) as (combined & rows & E & Hg & Hnull).
  exists combined, rows. split; [exact E|]. split; [exact Hg|].
  apply (Hnull "google_maps" Demo.maps); [simpl; tauto|reflexivity].
Defined.


Lemma phone_exact_and_partial_witness :
  "(303) 493-7000" <> "" /\ "303-493-7000" <> ""
  /\ digits_of "(303) 493-7000" <> "" /\ digits_of "303-493-7000" <> ""
  /\ digits_of "(303) 493-7000" = digits_of "303-493-7000"
  /\ field_confidence_for_method indel_fuzz "phone"
       (Some "(303) 493-7000") (Some "303-493-7000") = 100.
Proof.
  assert (Ha : "(303) 493-7000" <> "") by discriminate.
  assert (Hb : "303-493-7000" <> "") by discriminate.
  assert (Hda : digits_of "(303) 493-7000" <> "") by (vm_compute; discriminate).
  assert (Hdb : digits_of "303-493-7000" <> "") by (vm_compute; discriminate).
  assert (He : digits_of "(303) 493-7000" = digits_of "303-493-7000")
    by reflexivity.
  repeat (split; [assumption|]).
  exact (proj1 (phone_exact_and_partial indel_fuzz "(303) 493-7000"
                  "303-493-7000" Ha Hb Hda Hdb) He).
Defined.

Lemma missing_value_floor_witness :
  (@None string = None \/ @None string = Some "")
  /\ field_confidence_for_method indel_fuzz "address" None
       (Some "1550 S Potomac St") = 0
  /\ field_confidence_for_method indel_fuzz "address"
       (Some "1550 S Potomac St") None = 0.
Proof.
  assert (H : @None string = None \/ @None string = Some "") by (left; reflexivity).
  split; [exact H|].
  exact (missing_value_floor indel_fuzz "address" None
           (Some "1550 S Potomac St") H).
Defined.

Lemma npi_exact_or_nothing_witness :
  digits_of "1003000480" <> ""
  /\ digits_of "1003000480" = digits_of "NPI 1003000480"
  /\ field_confidence_for_method indel_fuzz "npi"
       (Some "1003000480") (Some "NPI 1003000480") = 100.
Proof.
  assert (Hd : digits_of "1003000480" <> "") by (vm_compute; discriminate).
  assert (He : digits_of "1003000480" = digits_of "NPI 1003000480")
    by reflexivity.
  split; [exact Hd|]. split; [exact He|].
  exact (proj1 (npi_exact_or_nothing indel_fuzz (Some "1003000480")
                  (Some "NPI 1003000480")) (conj Hd He)).
Defined.

Lemma no_methods_gives_zero_witness :
  In "phone" (keys Defaults.FIELD_WEIGHTS)
  /\ exists combined overall c,
       evaluate_all indel_fuzz Defaults.FIELD_WEIGHTS Defaults.METHOD_WEIGHTS
         Demo.extracted [] None None = Ok ([], combined, [], overall)
       /\ get combined "phone" = Some c /\ c == 0 /\ overall == 0.
Proof.
  assert (Hin : In "phone" (keys Defaults.FIELD_WEIGHTS)) by (simpl; tauto).
  split; [exact Hin|].
  destruct (no_methods_gives_zero indel_fuzz Defaults.FIELD_WEIGHTS
              Defaults.METHOD_WEIGHTS Demo.extracted None None)
    as (combined & overall & _ & Hget & _ & _ & Ho & E).
  destruct (Hget "phone" Hin) as (c & Hc & Hc0).
  exists combined, overall, c. auto.
Defined.


(** C8 fails as stated: a method weight table with a negative weight is
    accepted, and the pipeline returns a result. *)
Lemma negative_weight_is_accepted :
  ~ negative_weights_rejected indel_fuzz Defaults.FIELD_WEIGHTS
      Defaults.METHOD_WEIGHTS Skewed.extracted Skewed.methods Skewed.weights.
Proof.
  intros H. apply H.
  - unfold has_negative_weight, Skewed.weights.
    apply Exists_cons_tl, Exists_cons_hd. reflexivity.
  - unfold returns. rewrite evaluate_all_eq. eexists. reflexivity.
Qed.

Lemma scorer_and_aggregator_agree_witness :
  wf Demo.methods /\ In ("web_scrape", Demo.web) Demo.methods
  /\ In "phone" (keys Defaults.FIELD_WEIGHTS)
  /\ exists scores combined rows overall row summary,
       evaluate_all indel_fuzz Defaults.FIELD_WEIGHTS Defaults.METHOD_WEIGHTS
         Demo.extracted Demo.methods None None
         = Ok (scores, combined, rows, overall)
       /\ get rows "web_scrape" = Some row
       /\ get scores "web_scrape" = Some summary
       /\ get row "phone" = Some 100
       /\ get (breakdown summary) "phone" = Some (PyNum.round2 100).
Proof.
  assert (Hm : In ("web_scrape", Demo.web) Demo.methods) by (simpl; tauto).
  assert (Hf : In "phone" (keys Defaults.FIELD_WEIGHTS)) by (simpl; tauto).
  split; [exact demo_methods_wf|]. split; [exact Hm|]. split; [exact Hf|].
  exact (scorer_and_aggregator_agree indel_fuzz Defaults.FIELD_WEIGHTS
           Defaults.METHOD_WEIGHTS Demo.extracted Demo.methods None None
           "web_scrape" Demo.web "phone" demo_methods_wf Hm Hf).
Defined.

Lemma outputs_have_two_decimals_witness :
  In ("npi_registry", Demo.npireg) Demo.methods
  /\ exists scores combined rows overall,
       evaluate_all indel_fuzz Defaults.FIELD_WEIGHTS Defaults.METHOD_WEIGHTS
         Demo.extracted Demo.methods None None
         = Ok (scores, combined, rows, overall)
       /\ values_two_decimals combined /\ PyNum.two_decimals overall.
Proof.
  split; [simpl; tauto|].
  destruct (outputs_have_two_decimals indel_fuzz Defaults.FIELD_WEIGHTS
              Defaults.METHOD_WEIGHTS Demo.extracted Demo.methods None None)
    as (_ & _ & scores & combined & rows & overall & E & _ & Hc & Ho & _).
  exists scores, combined, rows, overall. auto.
Defined.

(** * Further properties of the comparator *)

Section ComparatorProperties.

Variable fuzz : rapidfuzz.
Variable FIELD_WEIGHTS : dict Q.
Variable METHOD_WEIGHTS : dict Q.

Local Abbreviation compare := (field_confidence_for_method fuzz).
Local Abbreviation tracked := (keys FIELD_WEIGHTS).

(** The five field names the comparator knows. *)
Lemma known_field_cases field :
  ~ In field ["name"; "address"; "specialty"; "phone"; "npi"] ->
  String.eqb field "name" = false /\ String.eqb field "address" = false
  /\ String.eqb field "specialty" = false /\ String.eqb field "phone" = false
  /\ String.eqb field "npi" = false.
Proof.
  intros H. repeat split; apply String.eqb_neq; intros ->; apply H; simpl; tauto.
Qed.

(** X1. Two specialties that are equal once lower-cased and stripped of the
    surrounding white space compare to 100, without any call of the fuzzy
    ratio; this includes two values made of white space only. *)
Theorem specialty_ignores_case_and_margins (a b : string) :
  a <> "" -> b <> "" ->
  PyStr.strip (PyStr.lower a) = PyStr.strip (PyStr.lower b) ->
  compare "specialty" (Some a) (Some b) = 100.
Proof.
  intros Ha Hb E. apply PyStrFacts.nonempty_true in Ha, Hb.
  unfold field_confidence_for_method, specialty_similarity. simpl String.eqb.
  simpl truthy. rewrite Ha, Hb. simpl str_of. cbv zeta.
  rewrite E, String.eqb_refl. reflexivity.
Qed.

(** X2. A phone value without any digit compares to 0 with everything, itself
    included: two identical phone values score 0 when they hold no digit. *)
Theorem phone_without_digits_scores_zero (a b : pyval) :
  digits_of (str_of a) = "" \/ digits_of (str_of b) = "" ->
  compare "phone" a b = 0 /\ compare "phone" b a = 0.
Proof.
  assert (H : forall x y, digits_of (str_of x) = "" \/ digits_of (str_of y) = "" ->
                          compare "phone" x y = 0).
  { intros x y Hd.
    unfold field_confidence_for_method, phone_similarity. simpl String.eqb.
    destruct (negb (truthy x) || negb (truthy y)); [reflexivity|].
    cbv zeta. destruct Hd as [-> | ->]; simpl; [reflexivity|].
    rewrite orb_true_r. reflexivity. }
  intros Hd. split; apply H; tauto.
Qed.

(** X3. Field names are matched exactly: for a name that is not one of the five
    the comparator returns 0 whatever the two values are, and when such a
    name is a key of the field weight table its combined confidence is 0. *)
Theorem unknown_field_scores_zero ext mrs mw field :
  ~ In field ["name"; "address"; "specialty"; "phone"; "npi"] ->
  (forall a b, compare field a b = 0)
  /\ (In field tracked ->
      exists combined rows c,
        compute_combined_field_confidences fuzz FIELD_WEIGHTS METHOD_WEIGHTS
          ext mrs mw = Ok (combined, rows)
        /\ get combined field = Some c /\ c == 0).
Proof.
  intros Hf.
  assert (Hzero : forall a b, compare field a b = 0).
  { intros a b. destruct (known_field_cases field Hf) as (E1 & E2 & E3 & E4 & E5).
    unfold field_confidence_for_method. rewrite E1, E2, E3, E4, E5. reflexivity. }
  split; [exact Hzero|]. intros Hin.
  rewrite compute_combined_eq. do 3 eexists. split; [reflexivity|]. split.
  - unfold combined_of.
    apply (LoopFacts.build_get_in
             (fun f => PyNum.round2
                         (weighted_average
                            (row_pairs (or_default mw METHOD_WEIGHTS)
                               (per_method_field_of fuzz ext mrs tracked) f))));
      exact Hin.
  - apply round2_zero, AverageFacts.weighted_average_zero.
    unfold row_pairs. apply Forall_forall. intros p Hp.
    apply in_map_iff in Hp. destruct Hp as ([m row] & <- & Hrow). simpl.
    apply per_method_field_of_in in Hrow. destruct Hrow as (r & _ & ->).
    unfold get_default. rewrite (per_field_of_get fuzz ext r tracked field Hin).
    rewrite Hzero. reflexivity.
Qed.

End ComparatorProperties.

(** * More on rounding, averages and loops *)

Module OrderFacts.

Lemma round_half_even_le x y :
  x <= y -> (PyNum.round_half_even x <= PyNum.round_half_even y)%Z.
Proof.
  intros Hxy.
  pose proof (Qfloor_resp_le _ _ Hxy) as Hf.
  pose proof (PyNumFacts.round_half_even_floor x) as Hx.
  pose proof (PyNumFacts.round_half_even_floor y) as Hy.
  destruct (Z.eq_dec (Qfloor x) (Qfloor y)) as [E|E]; [|lia].
  clear Hx Hy. unfold PyNum.round_half_even. rewrite E.
  destruct (Qcompare (x - inject_Z (Qfloor y)) (1 # 2)) eqn:Cx;
    destruct (Qcompare (y - inject_Z (Qfloor y)) (1 # 2)) eqn:Cy;
    try (destruct (Z.even (Qfloor y))); try lia;
    exfalso;
    repeat match goal with
    | H : Qcompare _ _ = Eq |- _ => rewrite <- Qeq_alt in H
    | H : Qcompare _ _ = Lt |- _ => rewrite <- Qlt_alt in H
    | H : Qcompare _ _ = Gt |- _ => rewrite <- Qgt_alt in H
    end;
    lra.
Qed.

(** [round(x, 2)] is monotone. *)
Lemma round2_le x y : x <= y -> PyNum.round2 x <= PyNum.round2 y.
Proof.
  intros Hxy. unfold PyNum.round2.
  assert (H : (PyNum.round_half_even (x * 100) <= PyNum.round_half_even (y * 100))%Z)
    by (apply round_half_even_le; lra).
  unfold Qle. simpl. lia.
Qed.

Lemma weighted_average_ext xs ys :
  wsum xs == wsum ys -> wtotal xs == wtotal ys ->
  weighted_average xs == weighted_average ys.
Proof.
  intros Hs Ht. unfold weighted_average.
  rewrite (Qeqb_comp _ _ Ht 0 0 (Qeq_refl 0)).
  destruct (Qeq_bool (wtotal ys) 0); [reflexivity|].
  now rewrite Hs, Ht.
Qed.

(** A weighted average with non-negative weights of positive total lies
    between the least and the greatest value. *)
Lemma wsum_between lo hi xs :
  Forall (fun p => lo <= fst p <= hi /\ 0 <= snd p) xs ->
  lo * wtotal xs <= wsum xs <= hi * wtotal xs.
Proof.
  induction 1 as [|[c w] xs [[Hlo Hhi] Hw] _ IH]; simpl in *; [lra|].
  assert (0 <= (c - lo) * w) by (apply Qmult_le_0_compat; lra).
  assert (0 <= (hi - c) * w) by (apply Qmult_le_0_compat; lra).
  lra.
Qed.

Lemma weighted_average_between lo hi xs :
  Forall (fun p => lo <= fst p <= hi /\ 0 <= snd p) xs ->
  0 < wtotal xs ->
  lo <= weighted_average xs <= hi.
Proof.
  intros H Hpos. destruct (wsum_between lo hi xs H) as [H1 H2].
  unfold weighted_average.
  destruct (Qeq_bool (wtotal xs) 0) eqn:E.
  - apply Qeq_bool_eq in E. lra.
  - split.
    + apply Qle_shift_div_l; lra.
    + apply Qle_shift_div_r; lra.
Qed.

Section Build.
Context {V : Type}.

(** Two loop bodies that agree on the keys visited build the same dict. *)
Lemma build_ext (g g' : string -> V) fs (d0 : dict V) :
  (forall f, In f fs -> g f = g' f) ->
  fold_left (fun d f => set d f (g f)) fs d0
  = fold_left (fun d f => set d f (g' f)) fs d0.
Proof.
  revert d0. induction fs as [|f fs IH]; intros d0 H; simpl; [reflexivity|].
  rewrite (H f) by (now left). apply IH. intros f' Hf'. apply H. now right.
Qed.

(** Over distinct keys, the loop builds one binding per key, in order. *)
Lemma build_map (g : string -> V) fs (d0 : dict V) :
  NoDup fs -> (forall f, In f fs -> ~ In f (keys d0)) ->
  fold_left (fun d f => set d f (g f)) fs d0
  = (d0 ++ map (fun f => (f, g f)) fs)%list.
Proof.
  revert d0. induction fs as [|f fs IH]; intros d0 Hnd Hfresh; simpl.
  - now rewrite app_nil_r.
  - inversion Hnd as [|? ? Hf Hnd']; subst.
    rewrite PyDictFacts.set_fresh by (apply Hfresh; now left).
    rewrite IH; [now rewrite <- app_assoc|assumption|].
    intros f' Hf' Hin. unfold keys in Hin. rewrite map_app in Hin.
    apply in_app_or in Hin. destruct Hin as [Hin|[<-|[]]].
    + apply (Hfresh f'); [now right|exact Hin].
    + contradiction.
Qed.

Lemma keys_build (g : string -> V) fs :
  NoDup fs -> keys (fold_left (fun d f => set d f (g f)) fs []) = fs.
Proof.
  intros Hnd. rewrite build_map by auto. simpl. unfold keys.
  rewrite map_map. simpl. apply map_id.
Qed.

End Build.

Lemma keys_map_items {A V : Type} (h : A -> V) (l : dict A) :
  keys (map (fun item => (fst item, h (snd item))) l) = keys l.
Proof. unfold keys. rewrite map_map. reflexivity. Qed.

End OrderFacts.

(** * Further properties of the scorer and the aggregator *)

Section EngineProperties.

Variable fuzz : rapidfuzz.
Variable FIELD_WEIGHTS : dict Q.
Variable METHOD_WEIGHTS : dict Q.

Local Abbreviation compare := (field_confidence_for_method fuzz).
Local Abbreviation tracked := (keys FIELD_WEIGHTS).

Lemma keys_per_field_of ext r fs :
  NoDup fs -> keys (per_field_of fuzz ext r fs) = fs.
Proof.
  intros H. unfold per_field_of.
  apply (OrderFacts.keys_build
           (fun f => compare f (get_val ext f) (get_val r f))); exact H.
Qed.

Lemma keys_breakdown_of ext r fs :
  NoDup fs -> keys (breakdown_of fuzz ext r fs) = fs.
Proof.
  intros H. unfold breakdown_of.
  apply (OrderFacts.keys_build
           (fun f => PyNum.round2 (compare f (get_val ext f) (get_val r f))));
    exact H.
Qed.

(** X4. The results have one entry per tracked field and per method, in the
    order of the field weight table and of [method_results]: the combined
    confidences, every row of the matrix and every breakdown are keyed by the
    tracked fields, the matrix and the method scores by the methods. *)
Theorem results_are_keyed_by_fields_and_methods ext mrs mw fw :
  wf FIELD_WEIGHTS -> wf mrs ->
  exists scores combined rows overall,
    evaluate_all fuzz FIELD_WEIGHTS METHOD_WEIGHTS ext mrs mw fw
      = Ok (scores, combined, rows, overall)
    /\ keys combined = tracked
    /\ keys rows = keys mrs
    /\ keys scores = keys mrs
    /\ Forall (fun row => keys (snd row) = tracked) rows
    /\ Forall (fun s => keys (breakdown (snd s)) = tracked) scores.
Proof.
  intros HF HM. rewrite evaluate_all_eq. do 4 eexists.
  split; [reflexivity|].
  split; [|split; [|split; [|split]]].
  - unfold combined_of.
    apply (OrderFacts.keys_build
             (fun f => PyNum.round2
                         (weighted_average
                            (row_pairs (or_default mw METHOD_WEIGHTS)
                               (per_method_field_of fuzz ext mrs tracked) f))));
      exact HF.
  - rewrite per_method_field_of_wf by exact HM.
    apply (OrderFacts.keys_map_items (fun r => per_field_of fuzz ext r tracked)).
  - unfold method_scores_of.
    rewrite (LoopFacts.build_items_map (summary_of fuzz FIELD_WEIGHTS ext))
      by auto.
    apply (OrderFacts.keys_map_items (summary_of fuzz FIELD_WEIGHTS ext)).
  - apply Forall_forall. intros [m row] Hin.
    apply per_method_field_of_in in Hin. destruct Hin as (r & _ & ->).
    simpl. now apply keys_per_field_of.
  - apply Forall_forall. intros [m s] Hin. unfold method_scores_of in Hin.
    apply (LoopFacts.build_items_in (summary_of fuzz FIELD_WEIGHTS ext)) in Hin.
    destruct Hin as [[]|(r & _ & ->)]. simpl. now apply keys_breakdown_of.
Qed.

Lemma method_pairs_app mw ext mrs1 mrs2 f :
  method_pairs fuzz mw ext (mrs1 ++ mrs2)%list f
  = (method_pairs fuzz mw ext mrs1 f ++ method_pairs fuzz mw ext mrs2 f)%list.
Proof. unfold method_pairs. apply map_app. Qed.

Lemma wf_remove {A : Type} (l1 l2 : dict A) x : wf (l1 ++ x :: l2)%list -> wf (l1 ++ l2)%list.
Proof.
  unfold wf, keys. rewrite !map_app. simpl. apply NoDup_remove_1.
Qed.

(** X5. A method whose weight is 0, for one because it is absent from the method
    weight table, has no influence on the combined confidences: they are
    the ones computed without that method. *)
Theorem zero_weight_method_is_ignored ext mrs1 m r mrs2 mw :
  wf (mrs1 ++ (m, r) :: mrs2)%list ->
  weight_of (or_default mw METHOD_WEIGHTS) m == 0 ->
  exists combined rows rows',
    compute_combined_field_confidences fuzz FIELD_WEIGHTS METHOD_WEIGHTS
      ext (mrs1 ++ (m, r) :: mrs2)%list mw = Ok (combined, rows)
    /\ compute_combined_field_confidences fuzz FIELD_WEIGHTS METHOD_WEIGHTS
         ext (mrs1 ++ mrs2)%list mw = Ok (combined, rows').
Proof.
  intros Hwf Hw. pose proof (wf_remove _ _ _ Hwf) as Hwf'.
  rewrite !compute_combined_eq. do 3 eexists. split; [reflexivity|].
  do 2 f_equal. unfold combined_of. apply OrderFacts.build_ext.
  intros f Hf. apply PyNumFacts.round2_Proper.
  rewrite !row_pairs_of_methods by assumption.
  rewrite method_pairs_app. rewrite (method_pairs_app _ _ mrs1 ((m, r) :: mrs2)).
  apply OrderFacts.weighted_average_ext.
  - rewrite !AverageFacts.wsum_app. simpl. rewrite Hw. lra.
  - rewrite !AverageFacts.wtotal_app. simpl. rewrite Hw. lra.
Qed.

Lemma weight_of_scale k table m :
  weight_of (scale_weights k table) m == k * weight_of table m.
Proof.
  unfold weight_of, get_default, scale_weights.
  induction table as [|[m0 w0] table IH]; simpl; [lra|].
  destruct (String.eqb m m0); [reflexivity|exact IH].
Qed.

Lemma scaled_sums k (xs ys : list (Q * Q)) :
  Forall2 (fun x y => fst y = fst x /\ snd y == k * snd x) xs ys ->
  wsum ys == k * wsum xs /\ wtotal ys == k * wtotal xs.
Proof.
  induction 1 as [|[c w] [c' w'] xs ys [Hc Hw] _ IH]; simpl in *; [lra|].
  subst c'. destruct IH as [IH1 IH2]. rewrite IH1, IH2, Hw. lra.
Qed.

Lemma scaled_average k xs ys :
  ~ k == 0 -> wsum ys == k * wsum xs -> wtotal ys == k * wtotal xs ->
  weighted_average ys == weighted_average xs.
Proof.
  intros Hk Hs Ht. unfold weighted_average.
  destruct (Qeq_bool (wtotal xs) 0) eqn:E.
  - apply Qeq_bool_eq in E.
    assert (E' : wtotal ys == 0) by (rewrite Ht, E; lra).
    now rewrite (Qeq_eq_bool _ _ E').
  - apply Qeq_bool_neq in E.
    assert (E' : ~ wtotal ys == 0).
    { rewrite Ht. intros H0. apply Qmult_integral in H0. tauto. }
    destruct (Qeq_bool (wtotal ys) 0) eqn:E''.
    + apply Qeq_bool_eq in E''. contradiction.
    + rewrite Hs, Ht. field. tauto.
Qed.

Lemma row_pairs_scale k mw rows f :
  Forall2 (fun x y => fst y = fst x /\ snd y == k * snd x)
    (row_pairs mw rows f) (row_pairs (scale_weights k mw) rows f).
Proof.
  unfold row_pairs. induction rows as [|[m row] rows IH]; simpl; constructor.
  - simpl. split; [reflexivity|apply weight_of_scale].
  - exact IH.
Qed.

Lemma overall_pairs_scale k fw combined :
  Forall2 (fun x y => fst y = fst x /\ snd y == k * snd x)
    (overall_pairs fw combined) (overall_pairs (scale_weights k fw) combined).
Proof.
  unfold overall_pairs. induction combined as [|[f c] combined IH]; simpl;
    constructor.
  - simpl. split; [reflexivity|apply weight_of_scale].
  - exact IH.
Qed.


Lemma method_pairs_between mw ext mrs f lo hi :
  nonneg_weights mw ->
  (forall m r, In (m, r) mrs ->
     lo <= compare f (get_val ext f) (get_val r f) <= hi) ->
  Forall (fun p => lo <= fst p <= hi /\ 0 <= snd p) (method_pairs fuzz mw ext mrs f).
Proof.
  intros Hw H. unfold method_pairs. apply Forall_forall. intros p Hp.
  apply in_map_iff in Hp. destruct Hp as ([m r] & <- & Hin). simpl. split.
  - now apply (H m r).
  - now apply AverageFacts.weight_of_nonneg.
Qed.


Lemma zero_pairs_average xs :
  Forall (fun p => fst p == 0) xs ->
  PyNum.round2 (if PyNum.ltb 0 (wtotal xs) then wsum xs / wtotal xs else 0) == 0.
Proof.
  intros H.
  assert (Hs : wsum xs == 0).
  { induction H as [|[c w] xs Hc _ IH]; simpl in *; [reflexivity|].
    rewrite IH, Hc. lra. }
  apply round2_zero. destruct (PyNum.ltb 0 (wtotal xs)); [|reflexivity].
  rewrite Hs. unfold Qdiv. lra.
Qed.

(** X8. A claimed record without any value (every field absent, null or empty)
    scores 0 everywhere: every entry of the matrix and of the breakdowns,
    every method score, every combined confidence and the overall
    confidence are 0, whatever the methods report and whatever the weights. *)
Theorem empty_claim_scores_zero ext mrs mw fw :
  (forall f, truthy (get_val ext f) = false) ->
  exists scores combined rows overall,
    evaluate_all fuzz FIELD_WEIGHTS METHOD_WEIGHTS ext mrs mw fw
      = Ok (scores, combined, rows, overall)
    /\ Forall (fun s => method_score (snd s) == 0
                        /\ values_zero (breakdown (snd s))) scores
    /\ Forall (fun row => values_zero (snd row)) rows
    /\ values_zero combined
    /\ overall == 0.
Proof.
  intros Hext.
  assert (Hcmp : forall f v, compare f (get_val ext f) v = 0).
  { intros f v. apply compare_of_missing. left. apply Hext. }
  assert (Hrows : Forall (fun row => values_zero (snd row))
                    (per_method_field_of fuzz ext mrs tracked)).
  { apply Forall_forall. intros [m row] Hin.
    apply per_method_field_of_in in Hin. destruct Hin as (r & _ & ->).
    apply Forall_forall. intros [f c] Hc. apply per_field_of_in in Hc.
    destruct Hc as [_ ->]. simpl. rewrite Hcmp. reflexivity. }
  assert (Hcomb : values_zero
                    (combined_of (or_default mw METHOD_WEIGHTS)
                       (per_method_field_of fuzz ext mrs tracked) tracked)).
  { apply Forall_forall. intros [f v] Hin. unfold combined_of in Hin.
    apply (LoopFacts.build_in
             (fun f => PyNum.round2
                         (weighted_average
                            (row_pairs (or_default mw METHOD_WEIGHTS)
                               (per_method_field_of fuzz ext mrs tracked) f))))
      in Hin.
    destruct Hin as [[]|[_ ->]]. simpl.
    apply round2_zero, AverageFacts.weighted_average_zero.
    unfold row_pairs. apply Forall_forall. intros p Hp.
    apply in_map_iff in Hp. destruct Hp as ([m row] & <- & Hrow). simpl.
    rewrite Forall_forall in Hrows. specialize (Hrows _ Hrow). simpl in Hrows.
    unfold get_default. destruct (get row f) as [c|] eqn:E; [|reflexivity].
    apply PyDictFacts.get_in in E.
    unfold values_zero in Hrows. rewrite Forall_forall in Hrows.
    apply (Hrows _ E). }
  rewrite evaluate_all_eq. do 4 eexists. split; [reflexivity|].
  split; [|split; [|split]].
  - apply Forall_forall. intros [m s] Hin. unfold method_scores_of in Hin.
    apply (LoopFacts.build_items_in (summary_of fuzz FIELD_WEIGHTS ext)) in Hin.
    destruct Hin as [[]|(r & _ & ->)]. simpl. split.
    + unfold method_score_of. cbv zeta. apply zero_pairs_average.
      unfold field_pairs. apply Forall_forall. intros p Hp.
      apply in_map_iff in Hp. destruct Hp as (f & <- & _). simpl.
      rewrite Hcmp. reflexivity.
    + apply Forall_forall. intros [f v] Hv. unfold breakdown_of in Hv.
      apply (LoopFacts.build_in
               (fun f => PyNum.round2 (compare f (get_val ext f) (get_val r f))))
        in Hv.
      destruct Hv as [[]|[_ ->]]. simpl. rewrite Hcmp. reflexivity.
  - exact Hrows.
  - exact Hcomb.
  - apply round2_zero, AverageFacts.weighted_average_zero.
    unfold overall_pairs. apply Forall_forall. intros p Hp.
    apply in_map_iff in Hp. destruct Hp as ([f c] & <- & Hin). simpl.
    unfold values_zero in Hcomb. rewrite Forall_forall in Hcomb.
    apply (Hcomb _ Hin).
Qed.

Lemma per_field_of_agree ext ext' r r' fs :
  agree_on fs ext ext' -> agree_on fs r r' ->
  per_field_of fuzz ext r fs = per_field_of fuzz ext' r' fs.
Proof.
  intros He Hr. unfold per_field_of. apply OrderFacts.build_ext.
  intros f Hf. now rewrite (He f Hf), (Hr f Hf).
Qed.

Lemma summary_of_agree ext ext' r r' :
  agree_on tracked ext ext' -> agree_on tracked r r' ->
  summary_of fuzz FIELD_WEIGHTS ext r = summary_of fuzz FIELD_WEIGHTS ext' r'.
Proof.
  intros He Hr. unfold summary_of. f_equal.
  - unfold method_score_of, field_pairs. cbv zeta.
    assert (E : map
                  (fun f => (compare f (get_val ext f) (get_val r f),
                             weight_of FIELD_WEIGHTS f)) tracked
                = map
                    (fun f => (compare f (get_val ext' f) (get_val r' f),
                               weight_of FIELD_WEIGHTS f)) tracked).
    { apply map_ext_in. intros f Hf. now rewrite (He f Hf), (Hr f Hf). }
    now rewrite E.
  - unfold breakdown_of. apply OrderFacts.build_ext.
    intros f Hf. now rewrite (He f Hf), (Hr f Hf).
Qed.

Lemma build_items_agree {A V : Type} (R : A -> A -> Prop) (h h' : A -> V)
    (l l' : dict A) (d0 : dict V) :
  (forall x y, R x y -> h x = h' y) ->
  Forall2 (fun x y => fst x = fst y /\ R (snd x) (snd y)) l l' ->
  fold_left (fun d '(k, x) => set d k (h x)) l d0
  = fold_left (fun d '(k, x) => set d k (h' x)) l' d0.
Proof.
  intros Hh H. revert d0.
  induction H as [|[k x] [k' y] l l' [Hk HR] _ IH]; intros d0; simpl;
    [reflexivity|].
  simpl in Hk, HR. subst k'. rewrite (Hh x y HR). apply IH.
Qed.

(** X9. The engine reads the records only at the tracked fields: two claimed
    records that agree on them, and two dicts of method results with the same
    method names whose records agree on them, give the same result; other
    keys of a record have no effect. *)
Theorem only_tracked_fields_are_read ext ext' mrs mrs' mw fw :
  agree_on tracked ext ext' ->
  methods_agree_on tracked mrs mrs' ->
  evaluate_all fuzz FIELD_WEIGHTS METHOD_WEIGHTS ext mrs mw fw
  = evaluate_all fuzz FIELD_WEIGHTS METHOD_WEIGHTS ext' mrs' mw fw.
Proof.
  intros He Hm. rewrite !evaluate_all_eq. cbv zeta.
  assert (Hrows : per_method_field_of fuzz ext mrs tracked
                  = per_method_field_of fuzz ext' mrs' tracked).
  { unfold per_method_field_of, items.
    apply (build_items_agree (agree_on tracked)); [|exact Hm].
    intros r r' Hr. now apply per_field_of_agree. }
  assert (Hscores : method_scores_of fuzz FIELD_WEIGHTS ext mrs
                    = method_scores_of fuzz FIELD_WEIGHTS ext' mrs').
  { unfold method_scores_of.
    apply (build_items_agree (agree_on tracked)); [|exact Hm].
    intros r r' Hr. now apply summary_of_agree. }
  now rewrite Hrows, Hscores.
Qed.

End EngineProperties.

(** * The caller [run_validations] *)

Section RunValidationsFacts.

Variable fuzz : rapidfuzz.
Variable FIELD_WEIGHTS : dict Q.
Variable METHOD_WEIGHTS : dict Q.
Variable validate_via_npi_registry : pyval -> record.
Variable scrape_npino : pyval -> record.
Variable validate_via_google : pyval -> record.

Local Abbreviation tracked := (keys FIELD_WEIGHTS).
Local Abbreviation run :=
  (run_validations fuzz FIELD_WEIGHTS METHOD_WEIGHTS
     validate_via_npi_registry scrape_npino validate_via_google).

(** X10. [run_validations] subscripts the claimed record at [npi] and at
    [address]: without the key [npi] it raises [KeyError] for it, with
    [npi] but without [address] it raises [KeyError] for [address], and
    with both keys (whatever their values, and whether or not [name],
    [phone] and [specialty] are there) it returns a report. *)
Theorem run_validations_needs_npi_and_address ext :
  (get ext "npi" = None -> run ext = Raise (KeyError "npi"))
  /\ (get ext "npi" <> None -> get ext "address" = None ->
      run ext = Raise (KeyError "address"))
  /\ (get ext "npi" <> None -> get ext "address" <> None -> returns (run ext)).
Proof.
  unfold run_validations, subscript. split; [|split].
  - intros ->. reflexivity.
  - intros Hn Ha. destruct (get ext "npi"); [|contradiction].
    rewrite Ha. reflexivity.
  - intros Hn Ha.
    destruct (get ext "npi"); [|contradiction].
    destruct (get ext "address"); [|contradiction].
    cbn [bind]. rewrite evaluate_all_eq. cbn [bind]. unfold returns. eauto.
Qed.

(** X11. The report of [run_validations] has the three methods, in the order
    registry, scrape, maps; the confidence of each is the score the method
    scorer gives to the record of that source over all tracked fields; the
    combined confidences and the overall confidence are those of the
    aggregator for the three records.  With non-negative default tables
    every number of the report is in [0,100]. *)
Theorem run_validations_report ext npi address :
  get ext "npi" = Some npi -> get ext "address" = Some address ->
  nonneg_weights FIELD_WEIGHTS -> nonneg_weights METHOD_WEIGHTS ->
  let sources : dict record :=
    [("npi_registry", validate_via_npi_registry npi);
     ("web_scrape", scrape_npino npi);
     ("google_maps", validate_via_google address)] in
  exists report rows,
    run ext = Ok report
    /\ method_confidences report
       = map (fun item =>
                (fst item, method_score_of fuzz FIELD_WEIGHTS ext (snd item) tracked))
           sources
    /\ compute_combined_field_confidences fuzz FIELD_WEIGHTS METHOD_WEIGHTS
         ext sources None = Ok (combined_field_confidences report, rows)
    /\ compute_overall_confidence FIELD_WEIGHTS
         (combined_field_confidences report) None
       = Ok (overall_confidence report)
    /\ values_in_range (method_confidences report)
    /\ values_in_range (combined_field_confidences report)
    /\ in_range (overall_confidence report).
Proof.
  intros Hn Ha HF HM sources.
  unfold run_validations, subscript. rewrite Hn, Ha. cbn [bind].
  fold sources. rewrite evaluate_all_eq. cbn [bind].
  do 2 eexists. split; [reflexivity|]. cbn [method_confidences
    combined_field_confidences overall_confidence].
  split; [reflexivity|].
  split; [apply compute_combined_eq|].
  split; [apply compute_overall_eq|].
  split; [|split].
  - repeat constructor; cbn [snd method_score summary_of];
      apply method_score_of_range; assumption.
  - apply combined_of_range. exact HM.
  - apply overall_range; [exact HF|apply combined_of_range; exact HM].
Qed.

End RunValidationsFacts.

(** * File names *)

Module FileNameFacts.
Import PySplit FileNames.

Lemma rsplit1_not_nil sep s : rsplit1 sep s <> [].
Proof.
  induction s as [|a s IH]; simpl; [discriminate|].
  destruct (rsplit1 sep s) as [|h [|t rest]]; [contradiction| |discriminate].
  destruct (Ascii.eqb a sep); discriminate.
Qed.

Lemma rsplit1_no_sep sep s : contains_char sep s = false -> rsplit1 sep s = [s].
Proof.
  induction s as [|a s IH]; simpl; [reflexivity|].
  intros H. apply orb_false_iff in H. destruct H as [Ha Hs].
  rewrite (IH Hs), Ha. reflexivity.
Qed.

Lemma rsplit1_last_sep sep base t :
  contains_char sep t = false ->
  rsplit1 sep (base ++ String sep t) = [base; t].
Proof.
  intros Ht. induction base as [|a base IH]; simpl.
  - rewrite (rsplit1_no_sep sep t Ht), Ascii.eqb_refl. reflexivity.
  - rewrite IH. reflexivity.
Qed.

Lemma split_char_not_nil sep s : split_char sep s <> [].
Proof.
  induction s as [|a s IH]; simpl; [discriminate|].
  destruct (Ascii.eqb a sep); [discriminate|].
  destruct (split_char sep s); discriminate.
Qed.

Lemma split_char_no_sep sep s : contains_char sep s = false -> split_char sep s = [s].
Proof.
  induction s as [|a s IH]; simpl; [reflexivity|].
  intros H. apply orb_false_iff in H. destruct H as [Ha Hs].
  rewrite (IH Hs), Ha. reflexivity.
Qed.

Lemma split_char_app sep base t :
  split_char sep (base ++ String sep t)
  = (split_char sep base ++ split_char sep t)%list.
Proof.
  induction base as [|a base IH]; simpl.
  - now rewrite Ascii.eqb_refl.
  - destruct (Ascii.eqb a sep); rewrite IH; [reflexivity|].
    pose proof (split_char_not_nil sep base) as Hn.
    destruct (split_char sep base); [contradiction|reflexivity].
Qed.

Lemma last_app_single {A : Type} (l : list A) (x d : A) :
  last (l ++ [x]) d = x.
Proof.
  induction l as [|y l IH]; simpl; [reflexivity|].
  destruct (l ++ [x])%list eqn:E; [|exact IH].
  destruct l; discriminate.
Qed.

Lemma last_split_char sep base t :
  contains_char sep t = false ->
  last (split_char sep (base ++ String sep t)) "" = t.
Proof.
  intros Ht. rewrite split_char_app, (split_char_no_sep sep t Ht).
  apply last_app_single.
Qed.

Lemma contains_char_app sep base t :
  contains_char sep (base ++ String sep t) = true.
Proof.
  induction base as [|a base IH]; simpl.
  - now rewrite Ascii.eqb_refl.
  - rewrite IH. apply orb_true_r.
Qed.

(** A string with a separator splits at the last one. *)
Lemma cut_at_last sep s :
  contains_char sep s = true ->
  exists base t, s = base ++ String sep t /\ contains_char sep t = false.
Proof.
  induction s as [|a s IH]; simpl; [discriminate|].
  destruct (contains_char sep s) eqn:Hs.
  - intros _. destruct (IH eq_refl) as (base & t & -> & Ht).
    exists (String a base), t. auto.
  - rewrite orb_false_r. intros Ha. apply Ascii.eqb_eq in Ha. subst a.
    exists "", s. auto.
Qed.

Lemma lower_char_dot c :
  Ascii.eqb (PyStr.lower_char c) "." = Ascii.eqb c ".".
Proof. destruct c as [[] [] [] [] [] [] [] []]; reflexivity. Qed.

Lemma lower_app a b : PyStr.lower (a ++ b) = PyStr.lower a ++ PyStr.lower b.
Proof. induction a as [|c a IH]; simpl; [reflexivity|now rewrite IH]. Qed.

Lemma contains_dot_lower s :
  contains_char "." (PyStr.lower s) = contains_char "." s.
Proof.
  induction s as [|c s IH]; simpl; [reflexivity|].
  now rewrite lower_char_dot, IH.
Qed.

Lemma lower_with_dot base ext :
  PyStr.lower (base ++ String "." ext)
  = PyStr.lower base ++ String "." (PyStr.lower ext).
Proof. rewrite lower_app. reflexivity. Qed.

(** X12. [allowed_file] never raises, and accepts exactly the names with a dot
    whose part after the last dot is [csv] in any letter case; a name
    without a dot is refused. *)
Theorem allowed_file_accepts_csv_extension filename :
  exists b,
    allowed_file filename = Some b
    /\ (b = true <->
        exists base ext,
          filename = base ++ String "." ext
          /\ contains_char "." ext = false
          /\ PyStr.lower ext = "csv").
Proof.
  unfold allowed_file. destruct (contains_char "." filename) eqn:Hdot.
  - destruct (cut_at_last "." filename Hdot) as (base & t & -> & Ht).
    rewrite (rsplit1_last_sep "." base t Ht). simpl nth_error.
    eexists. split; [reflexivity|]. simpl existsb. rewrite orb_false_r. split.
    + intros E. apply String.eqb_eq in E. exists base, t. auto.
    + intros (base' & ext' & E & Hext & Hcsv).
      apply (f_equal (rsplit1 ".")) in E.
      rewrite (rsplit1_last_sep "." base t Ht) in E.
      rewrite (rsplit1_last_sep "." base' ext' Hext) in E.
      injection E as _ ->. rewrite Hcsv. reflexivity.
  - exists false. split; [reflexivity|]. split; [discriminate|].
    intros (base & ext & -> & _). rewrite contains_char_app in Hdot.
    discriminate.
Qed.

Section DetectFacts.

Context {A : Type}.
Variable extract_from_csv : string -> A.
Variable extract_from_pdf : string -> A.

Local Abbreviation detect := (detect_file_type extract_from_csv extract_from_pdf).

(** What an extension is routed to. *)
Let route (path ext : string) : detected A :=
  if String.eqb (PyStr.lower ext) "csv" then Extracted (extract_from_csv path)
  else if String.eqb (PyStr.lower ext) "pdf" then Extracted (extract_from_pdf path)
  else UnsupportedFileType.

(** X13. [detect_file_type] routes a path by the part after its last dot, in any
    letter case: [csv] to the CSV extractor, [pdf] to the PDF extractor,
    anything else to [ValueError].  A path without a dot is taken whole as
    its extension, so that the file named [csv] goes to the CSV extractor,
    a name [allowed_file] refuses; on names with a dot the two functions
    agree on what a CSV file is. *)
Theorem detect_file_type_routes_by_extension base ext :
  contains_char "." ext = false ->
  detect (base ++ String "." ext) = route (base ++ String "." ext) ext
  /\ detect ext = route ext ext
  /\ allowed_file ext = Some false
  /\ allowed_file (base ++ String "." ext)
     = Some (String.eqb (PyStr.lower ext) "csv").
Proof.
  intros Hext. unfold detect_file_type, route. cbv zeta.
  assert (Hl : contains_char "." (PyStr.lower ext) = false)
    by (now rewrite contains_dot_lower).
  split; [|split; [|split]].
  - rewrite lower_with_dot, (last_split_char "." _ _ Hl). reflexivity.
  - rewrite (split_char_no_sep "." _ Hl). reflexivity.
  - unfold allowed_file. now rewrite Hext.
  - unfold allowed_file. rewrite contains_char_app.
    rewrite (rsplit1_last_sep "." base ext Hext). simpl.
    now rewrite orb_false_r.
Qed.

End DetectFacts.

End FileNameFacts.

(** * The registry matcher *)

Module NpiMatcherFacts.
Import PyValue ProviderInfo NpiMatcher.

Lemma rate_ok n d :
  exists q, rate n d = Ok q /\ 0 <= q
            /\ ((n <= d)%nat -> q <= 100) /\ (n = 0%nat -> q == 0).
Proof.
  unfold rate. destruct (Nat.ltb 0 d) eqn:E.
  - apply Nat.ltb_lt in E.
    assert (Hd : 0 < inject_Z (Z.of_nat d)).
    { change 0 with (inject_Z 0). rewrite <- Zlt_Qlt. lia. }
    assert (Hn : 0 <= inject_Z (Z.of_nat n)).
    { change 0 with (inject_Z 0). rewrite <- Zle_Qle. lia. }
    assert (Hle : (n <= d)%nat -> inject_Z (Z.of_nat n) <= inject_Z (Z.of_nat d))
      by (intros Hle; rewrite <- Zle_Qle; lia).
    assert (Hz : n = 0%nat -> inject_Z (Z.of_nat n) == 0) by (intros ->; reflexivity).
    generalize dependent (inject_Z (Z.of_nat n)).
    generalize dependent (inject_Z (Z.of_nat d)).
    intros qd Hd qn Hn Hle Hz.
    rewrite PyNumFacts.div_ok by lra. simpl bind.
    eexists. split; [reflexivity|].
    assert (H0 : 0 <= qn / qd) by (apply Qle_shift_div_l; lra).
    split; [lra|]. split.
    + intros Hnd. specialize (Hle Hnd).
      assert (qn / qd <= 1) by (apply Qle_shift_div_r; lra).
      lra.
    + intros Hn0. rewrite (Hz Hn0). unfold Qdiv. lra.
  - exists 0. split; [reflexivity|]. repeat split; try lra.
Qed.

Lemma successful_loop results kept :
  Forall (fun r => get (npi_data r) "status" <> None) results ->
  for_each results
    (fun kept r =>
       status <- subscript (npi_data r) "status" ;;
       Ok (if pyval_eqb status (Some "SUCCESS") then (kept ++ [r])%list
           else kept))
    kept
  = Ok (kept ++ List.filter lookup_succeeded results)%list.
Proof.
  intros H. revert kept.
  induction H as [|r results Hr _ IH]; intros kept; simpl.
  - now rewrite app_nil_r.
  - unfold subscript at 1, lookup_succeeded at 1.
    destruct (get (npi_data r) "status") as [status|]; [|contradiction].
    simpl bind. rewrite IH.
    destruct (pyval_eqb status (Some "SUCCESS")); [|reflexivity].
    now rewrite <- app_assoc.
Qed.

Lemma filter_length_le {A : Type} (p : A -> bool) l :
  (List.length (List.filter p l) <= List.length l)%nat.
Proof.
  induction l as [|x l IH]; simpl; [lia|]. destruct (p x); simpl; lia.
Qed.

Lemma filter_length_mono {A : Type} (p q : A -> bool) l :
  Forall (fun x => p x = true -> q x = true) l ->
  (List.length (List.filter p l) <= List.length (List.filter q l))%nat.
Proof.
  induction 1 as [|x l Hx _ IH]; simpl; [lia|].
  destruct (p x) eqn:Ep.
  - rewrite (Hx eq_refl). simpl. lia.
  - destruct (q x); simpl; lia.
Qed.

Lemma summary_eq results :
  Forall (fun r => get (npi_data r) "status" <> None) results ->
  exists sr mr,
    rate (List.length (List.filter lookup_succeeded results))
      (List.length results) = Ok sr
    /\ rate (List.length (List.filter is_perfect_match results))
         (List.length (List.filter lookup_succeeded results)) = Ok mr
    /\ get_validation_summary results
       = Ok {| total_providers := List.length results;
               successful_lookups :=
                 List.length (List.filter lookup_succeeded results);
               perfect_matches :=
                 List.length (List.filter is_perfect_match results);
               ai_insights_count :=
                 fold_left (fun n r => (n + List.length (ai_insights r))%nat)
                   results 0%nat;
               mismatch_types :=
                 fold_left
                   (fun types result =>
                      fold_left count_mismatch (mismatches result) types)
                   results [];
               success_rate := sr;
               match_rate := mr |}.
Proof.
  intros H. unfold get_validation_summary.
  rewrite (successful_loop results [] H). simpl bind. simpl app.
  destruct (rate_ok (List.length (List.filter lookup_succeeded results))
              (List.length results)) as (sr & Esr & _).
  destruct (rate_ok (List.length (List.filter is_perfect_match results))
              (List.length (List.filter lookup_succeeded results)))
    as (mr & Emr & _).
  exists sr, mr. split; [exact Esr|]. split; [exact Emr|].
  fold is_perfect_match. unfold is_perfect_match at 1.
  rewrite Esr. simpl bind.
  change (List.filter
            (fun r => pyval_eqb (match_status r) (Some "PERFECT_MATCH")) results)
    with (List.filter is_perfect_match results).
  rewrite Emr. reflexivity.
Qed.

(** X14. On results that carry a lookup status the summary raises nothing: the
    divisions are guarded.  The number of successful lookups is at most the
    number of providers and the success rate is in [0,100]; with no result
    at all, every count and both rates are 0. *)
Theorem summary_counts_and_success_rate results :
  Forall (fun r => get (npi_data r) "status" <> None) results ->
  exists s,
    get_validation_summary results = Ok s
    /\ total_providers s = List.length results
    /\ (successful_lookups s <= total_providers s)%nat
    /\ in_range (success_rate s)
    /\ 0 <= match_rate s
    /\ (results = [] ->
        successful_lookups s = 0%nat /\ perfect_matches s = 0%nat
        /\ ai_insights_count s = 0%nat /\ mismatch_types s = []
        /\ success_rate s == 0 /\ match_rate s == 0).
Proof.
  intros H. destruct (summary_eq results H) as (sr & mr & Esr & Emr & E).
  eexists. split; [exact E|]. cbn [total_providers successful_lookups
    perfect_matches ai_insights_count mismatch_types success_rate match_rate].
  destruct (rate_ok (List.length (List.filter lookup_succeeded results))
              (List.length results)) as (sr' & Esr' & Hs0 & Hs1 & Hsz).
  destruct (rate_ok (List.length (List.filter is_perfect_match results))
              (List.length (List.filter lookup_succeeded results)))
    as (mr' & Emr' & Hm0 & _ & Hmz).
  rewrite Esr in Esr'. injection Esr' as <-.
  rewrite Emr in Emr'. injection Emr' as <-.
  split; [reflexivity|].
  split; [apply filter_length_le|].
  split; [split; [exact Hs0|apply Hs1, filter_length_le]|].
  split; [exact Hm0|].
  intros ->. simpl in *. repeat split; auto.
Qed.

Lemma count_mismatch_get types m k :
  get_default (count_mismatch types m) k 0%nat
  = (get_default types k 0 + (if String.eqb (before_colon m) k then 1 else 0))%nat.
Proof.
  unfold count_mismatch. cbv zeta.
  destruct (String.eqb (before_colon m) k) eqn:E.
  - apply String.eqb_eq in E. subst k.
    unfold get_default at 1. rewrite PyDictFacts.get_set_eq. reflexivity.
  - apply String.eqb_neq in E.
    unfold get_default at 1. rewrite PyDictFacts.get_set_ne by exact E.
    fold (get_default types k 0%nat). lia.
Qed.

Lemma count_loop ms types k :
  get_default (fold_left count_mismatch ms types) k 0%nat
  = (get_default types k 0
     + List.length (List.filter (fun m => String.eqb (before_colon m) k) ms))%nat.
Proof.
  revert types. induction ms as [|m ms IH]; intros types; simpl; [lia|].
  rewrite IH, count_mismatch_get.
  destruct (String.eqb (before_colon m) k); simpl; lia.
Qed.

Lemma count_results results types k :
  get_default
    (fold_left
       (fun types result => fold_left count_mismatch (mismatches result) types)
       results types) k 0%nat
  = (get_default types k 0
     + List.length
         (List.filter (fun m => String.eqb (before_colon m) k)
            (all_mismatches results)))%nat.
Proof.
  revert types. induction results as [|r results IH]; intros types; simpl;
    [lia|].
  rewrite IH, count_loop, List.filter_app, length_app. lia.
Qed.

Lemma count_results_wf results types :
  wf types ->
  wf (fold_left
        (fun types result => fold_left count_mismatch (mismatches result) types)
        results types).
Proof.
  revert types. induction results as [|r results IH]; intros types H; simpl;
    [exact H|].
  apply IH. clear IH. revert types H.
  induction (mismatches r) as [|m ms IHm]; intros types H; simpl; [exact H|].
  apply IHm. unfold count_mismatch. now apply PyDictFacts.set_wf.
Qed.

Lemma insights_loop results n :
  fold_left (fun n r => (n + List.length (ai_insights r))%nat) results n
  = (n + List.length (flat_map ai_insights results))%nat.
Proof.
  revert n. induction results as [|r results IH]; intros n; simpl; [lia|].
  rewrite IH, length_app. lia.
Qed.

(** X15. The summary counts the mismatches by type, the type being the text
    before the first colon: for every type, its entry in [mismatch_types]
    (0 when it has none) is the number of mismatches of that type over all
    results, every type has one entry, and [ai_insights_count] is the total
    number of insights. *)
Theorem summary_counts_mismatches_by_type results :
  Forall (fun r => get (npi_data r) "status" <> None) results ->
  exists s,
    get_validation_summary results = Ok s
    /\ wf (mismatch_types s)
    /\ (forall k,
          get_default (mismatch_types s) k 0%nat
          = List.length
              (List.filter (fun m => String.eqb (before_colon m) k)
                 (all_mismatches results)))
    /\ ai_insights_count s = List.length (flat_map ai_insights results).
Proof.
  intros H. destruct (summary_eq results H) as (sr & mr & _ & _ & E).
  eexists. split; [exact E|].
  cbn [mismatch_types ai_insights_count]. split; [|split].
  - apply count_results_wf. constructor.
  - intros k. rewrite count_results. reflexivity.
  - apply insights_loop.
Qed.

Lemma decimal_not_perfect n :
  decimal n ++ "_MISMATCHES" <> "PERFECT_MATCH".
Proof.
  unfold decimal. destruct (Nat.to_uint n); simpl; discriminate.
Qed.

Lemma reply_status reply :
  exists status,
    get (get_npi_provider_data reply) "status" = Some (Some status)
    /\ (status = "SUCCESS" <-> exists info, reply = Found info)
    /\ (status = "SUCCESS" \/ status = "NOT_FOUND" \/ status = "ERROR").
Proof.
  destruct reply as [info| | |e|e]; [|simpl..].
  - exists "SUCCESS". unfold get_npi_provider_data. cbv zeta.
    rewrite PyDictFacts.get_set_eq.
    split; [reflexivity|]. split; [|tauto]. split; eauto.
  - exists "NOT_FOUND". split; [reflexivity|]. split; [|tauto].
    split; [discriminate|intros [? ?]; discriminate].
  - exists "ERROR". split; [reflexivity|]. split; [|tauto].
    split; [discriminate|intros [? ?]; discriminate].
  - exists "ERROR". split; [reflexivity|]. split; [|tauto].
    split; [discriminate|intros [? ?]; discriminate].
  - exists "ERROR". split; [reflexivity|]. split; [|tauto].
    split; [discriminate|intros [? ?]; discriminate].
Qed.

Section MatchingFacts.

Variable upper : string -> string.
Variable enhanced : record -> record -> list string * list string.


Lemma produced_has_status r :
  produced_by_loop upper enhanced r ->
  get (npi_data r) "status" <> None
  /\ (is_perfect_match r = true -> lookup_succeeded r = true).
Proof.
  intros (use_ai & n & csv & reply & E).
  destruct (reply_status reply) as (status & Hget & Hfound & Hcases).
  unfold provider_result, subscript in E. rewrite Hget in E. cbn [bind] in E.
  simpl pyval_eqb in E.
  destruct (String.eqb status "SUCCESS") eqn:Es.
  - destruct (if use_ai then enhanced csv (get_npi_provider_data reply)
              else (check_data_match_basic upper csv
                      (get_npi_provider_data reply), []))
      as [ms ins].
    injection E as <-. unfold lookup_succeeded, is_perfect_match.
    cbn [npi_data match_status]. rewrite Hget. simpl pyval_eqb. rewrite Es.
    split; [discriminate|auto].
  - injection E as <-. unfold lookup_succeeded, is_perfect_match.
    cbn [npi_data match_status]. rewrite Hget. simpl pyval_eqb.
    split; [discriminate|].
    intros Hp. apply String.eqb_eq in Hp. subst status.
    destruct Hcases as [H|[H|H]]; discriminate.
Qed.

(** X17. On the results the loop of [validate_providers_from_csv] produces, the
    summary raises nothing, the perfect matches are among the successful
    lookups, and both rates are in [0,100]. *)
Theorem summary_rates_of_loop_results results :
  Forall (produced_by_loop upper enhanced) results ->
  exists s,
    get_validation_summary results = Ok s
    /\ (perfect_matches s <= successful_lookups s <= total_providers s)%nat
    /\ in_range (success_rate s)
    /\ in_range (match_rate s).
Proof.
  intros H.
  assert (Hs : Forall (fun r => get (npi_data r) "status" <> None) results).
  { eapply Forall_impl; [|exact H]. intros r Hr.
    now apply produced_has_status. }
  assert (Hp : Forall (fun r => is_perfect_match r = true ->
                               lookup_succeeded r = true) results).
  { eapply Forall_impl; [|exact H]. intros r Hr.
    now apply produced_has_status. }
  destruct (summary_eq results Hs) as (sr & mr & Esr & Emr & E).
  eexists. split; [exact E|].
  cbn [total_providers successful_lookups perfect_matches success_rate match_rate].
  pose proof (filter_length_mono _ _ _ Hp) as Hpm.
  pose proof (filter_length_le lookup_succeeded results) as Hsl.
  destruct (rate_ok (List.length (List.filter lookup_succeeded results))
              (List.length results)) as (sr' & Esr' & Hs0 & Hs1 & _).
  destruct (rate_ok (List.length (List.filter is_perfect_match results))
              (List.length (List.filter lookup_succeeded results)))
    as (mr' & Emr' & Hm0 & Hm1 & _).
  rewrite Esr in Esr'. injection Esr' as <-.
  rewrite Emr in Emr'. injection Emr' as <-.
  split; [lia|]. unfold in_range. auto.
Qed.

Lemma basic_loop_agree csv npi fs acc :
  (forall f, In f fs ->
     get_default csv f (Some "") = get_default npi f (Some "")) ->
  fold_left
    (fun mismatches field =>
       let csv_val := upper (str (get_default csv field (Some ""))) in
       let npi_val := upper (str (get_default npi field (Some ""))) in
       if negb (String.eqb csv_val npi_val)
          && PyStr.nonempty csv_val && PyStr.nonempty npi_val
          && negb (String.eqb npi_val "N/A")
       then
         let text :=
           upper field ++ ": CSV '" ++ str (get_val csv field)
           ++ "' vs NPI '" ++ str (get_val npi field) ++ "'" in
         List.app mismatches [text]
       else mismatches)
    fs acc = acc.
Proof.
  revert acc. induction fs as [|f fs IH]; intros acc H; simpl; [reflexivity|].
  rewrite (H f) by (now left). rewrite String.eqb_refl. simpl.
  apply IH. intros f' Hf'. apply H. now right.
Qed.

Lemma basic_loop_length csv npi fs acc :
  (List.length
     (fold_left
        (fun mismatches field =>
           let csv_val := upper (str (get_default csv field (Some ""))) in
           let npi_val := upper (str (get_default npi field (Some ""))) in
           if negb (String.eqb csv_val npi_val)
              && PyStr.nonempty csv_val && PyStr.nonempty npi_val
              && negb (String.eqb npi_val "N/A")
           then
             let text :=
               upper field ++ ": CSV '" ++ str (get_val csv field)
               ++ "' vs NPI '" ++ str (get_val npi field) ++ "'" in
             List.app mismatches [text]
           else mismatches)
        fs acc)
   <= List.length acc + List.length fs)%nat.
Proof.
  revert acc. induction fs as [|f fs IH]; intros acc; simpl; [lia|].
  match goal with |- context [if ?c then _ else _] => destruct c end.
  - etransitivity; [apply IH|]. rewrite length_app. simpl. lia.
  - etransitivity; [apply IH|]. lia.
Qed.

(** X18. The rule-based check compares the seven checked fields only, after
    [str] and [upper]: it reports nothing when the two records hold the same
    value (or both none) for each of them, in particular for a record
    compared with itself, and the loop body without the language model then
    gives PERFECT_MATCH; it never reports more than one mismatch per checked
    field, seven in all. *)
Theorem basic_check_of_equal_records provider_num csv_dict provider :
  let npi_data := get_npi_provider_data (Found provider) in
  (forall f, In f fields_to_check ->
     get_default csv_dict f (Some "") = get_default npi_data f (Some "")) ->
  check_data_match_basic upper csv_dict npi_data = []
  /\ check_data_match_basic upper csv_dict csv_dict = []
  /\ (forall other,
        List.length (check_data_match_basic upper csv_dict other) <= 7)%nat
  /\ exists r,
       provider_result upper enhanced false provider_num csv_dict npi_data = Ok r
       /\ match_status r = Some "PERFECT_MATCH" /\ mismatches r = [].
Proof.
  intros npi_data Hag.
  assert (E : check_data_match_basic upper csv_dict npi_data = [])
    by (apply basic_loop_agree; exact Hag).
  split; [exact E|].
  split; [apply basic_loop_agree; reflexivity|].
  split; [intros other; apply (basic_loop_length csv_dict other fields_to_check [])|].
  unfold provider_result, subscript. subst npi_data.
  unfold get_npi_provider_data at 1. cbv zeta.
  rewrite PyDictFacts.get_set_eq. cbn [bind]. simpl pyval_eqb.
  rewrite E.
  eexists. split; [reflexivity|]. split; reflexivity.
Qed.

End MatchingFacts.

End NpiMatcherFacts.

(** * The information extracted from a registry result *)

Module ProviderInfoFacts.
Import PyValue ProviderInfo.

Lemma first_such_split {A : Type} (p : A -> bool) pre a post :
  p a = true -> Forall (fun x => p x = false) pre ->
  first_such p (pre ++ a :: post) = Some a.
Proof.
  intros Ha H. induction H as [|x pre Hx _ IH]; simpl.
  - now rewrite Ha.
  - now rewrite Hx.
Qed.

Lemma first_such_none {A : Type} (p : A -> bool) l :
  Forall (fun x => p x = false) l -> first_such p l = None.
Proof.
  induction 1 as [|x l Hx _ IH]; simpl; [reflexivity|]. now rewrite Hx.
Qed.

Lemma location_is_truthy a : is_location a = true -> dict_truthy a = true.
Proof.
  unfold is_location, get_val. destruct a; [discriminate|reflexivity].
Qed.

Lemma primary_is_truthy t : is_primary t = true -> tax_truthy t = true.
Proof.
  unfold is_primary, tax_truthy. destruct (primary t); [reflexivity|discriminate].
Qed.

Lemma field_or_na_some a k :
  field_or_na (Some a) k = get_default a k (Some "N/A").
Proof. unfold field_or_na. destruct a; reflexivity. Qed.

Lemma tax_field_or_na_some t k :
  tax_field_or_na (Some t) k = get_default (tax_fields t) k (Some "N/A").
Proof.
  unfold tax_field_or_na, tax_truthy.
  destruct (primary t); [reflexivity|]. destruct (tax_fields t); reflexivity.
Qed.

Lemma info_address_fields p :
  let pa := practice_address_of (or_default (addresses p) []) in
  let info := extract_all_provider_info p in
  get info "Address" = Some (field_or_na pa "address_1")
  /\ get info "City" = Some (field_or_na pa "city")
  /\ get info "State" = Some (field_or_na pa "state")
  /\ get info "Zip" = Some (field_or_na pa "postal_code")
  /\ get info "Phone" = Some (field_or_na pa "telephone_number").
Proof. repeat split. Qed.

Lemma info_specialty_fields p :
  let ps := primary_specialty_of (or_default (taxonomies p) []) in
  let info := extract_all_provider_info p in
  get info "Speciality" = Some (tax_field_or_na ps "desc")
  /\ get info "License_number" = Some (tax_field_or_na ps "license").
Proof. repeat split. Qed.

Lemma address_fields_of_choice p a :
  practice_address_of (or_default (addresses p) []) = Some a ->
  address_fields_from (extract_all_provider_info p) a.
Proof.
  intros Hp. destruct (info_address_fields p) as (H1 & H2 & H3 & H4 & H5).
  cbv zeta in *. rewrite Hp in *. rewrite !field_or_na_some in *.
  unfold address_fields_from. auto.
Qed.

Lemma specialty_fields_of_choice p t :
  primary_specialty_of (or_default (taxonomies p) []) = Some t ->
  get (extract_all_provider_info p) "Speciality"
  = Some (get_default (tax_fields t) "desc" (Some "N/A"))
  /\ get (extract_all_provider_info p) "License_number"
     = Some (get_default (tax_fields t) "license" (Some "N/A")).
Proof.
  intros Hp. destruct (info_specialty_fields p) as (H1 & H2).
  cbv zeta in *. rewrite Hp in *. rewrite !tax_field_or_na_some in *. auto.
Qed.

(** X19. The address, city, state, zip and phone of the extracted information
    are read from the first address whose purpose is LOCATION, wherever it is
    in the list; when no address has that purpose, from the first address;
    and they are all N/A when the result has no address. *)
Theorem practice_address_is_first_location p :
  (forall pre a post,
      addresses p = Some (pre ++ a :: post)%list ->
      is_location a = true -> Forall (fun x => is_location x = false) pre ->
      address_fields_from (extract_all_provider_info p) a)
  /\ (forall a rest,
        addresses p = Some (a :: rest) ->
        Forall (fun x => is_location x = false) (a :: rest) ->
        address_fields_from (extract_all_provider_info p) a)
  /\ (addresses p = None \/ addresses p = Some [] ->
      address_fields_from (extract_all_provider_info p) []).
Proof.
  split; [|split].
  - intros pre a post E Ha Hpre. apply address_fields_of_choice.
    rewrite E. simpl or_default. unfold practice_address_of.
    rewrite (first_such_split _ _ _ _ Ha Hpre).
    cbv zeta. rewrite (location_is_truthy a Ha). reflexivity.
  - intros a rest E Hno. apply address_fields_of_choice.
    rewrite E. simpl or_default. unfold practice_address_of.
    rewrite (first_such_none _ _ Hno). reflexivity.
  - intros HE.
    assert (Hp : practice_address_of (or_default (addresses p) []) = None)
      by (destruct HE as [-> | ->]; reflexivity).
    destruct (info_address_fields p) as (H1 & H2 & H3 & H4 & H5).
    cbv zeta in *. rewrite Hp in *. unfold address_fields_from. auto.
Qed.

(** X20. The specialty and the license number of the extracted information are
    read from the first taxonomy flagged primary, wherever it is in the
    list; when none is flagged, from the first taxonomy; and both are N/A
    when the result has no taxonomy. *)
Theorem primary_specialty_is_first_flagged p :
  let info := extract_all_provider_info p in
  (forall pre t post,
      taxonomies p = Some (pre ++ t :: post)%list ->
      is_primary t = true -> Forall (fun x => is_primary x = false) pre ->
      get info "Speciality" = Some (get_default (tax_fields t) "desc" (Some "N/A"))
      /\ get info "License_number"
         = Some (get_default (tax_fields t) "license" (Some "N/A")))
  /\ (forall t rest,
        taxonomies p = Some (t :: rest) ->
        Forall (fun x => is_primary x = false) (t :: rest) ->
        get info "Speciality" = Some (get_default (tax_fields t) "desc" (Some "N/A"))
        /\ get info "License_number"
           = Some (get_default (tax_fields t) "license" (Some "N/A")))
  /\ (taxonomies p = None \/ taxonomies p = Some [] ->
      get info "Speciality" = Some (Some "N/A")
      /\ get info "License_number" = Some (Some "N/A")).
Proof.
  intros info. subst info. split; [|split].
  - intros pre t post E Ht Hpre. apply specialty_fields_of_choice.
    rewrite E. simpl or_default. unfold primary_specialty_of.
    rewrite (first_such_split _ _ _ _ Ht Hpre).
    cbv zeta. rewrite (primary_is_truthy t Ht). reflexivity.
  - intros t rest E Hno. apply specialty_fields_of_choice.
    rewrite E. simpl or_default. unfold primary_specialty_of.
    rewrite (first_such_none _ _ Hno). reflexivity.
  - intros HE.
    assert (Hp : primary_specialty_of (or_default (taxonomies p) []) = None)
      by (destruct HE as [-> | ->]; reflexivity).
    destruct (info_specialty_fields p) as (H1 & H2).
    cbv zeta in *. rewrite Hp in *. auto.
Qed.

End ProviderInfoFacts.

(** * The pipeline *)

Section PipelineFacts.

Variable fuzz : rapidfuzz.
Variable FIELD_WEIGHTS : dict Q.
Variable METHOD_WEIGHTS : dict Q.
Variable validate_via_npi_registry : pyval -> record.
Variable scrape_npino : pyval -> record.
Variable validate_via_google : pyval -> record.
Variable extract_with_vision_api : string -> record.

Local Abbreviation run :=
  (run_validations fuzz FIELD_WEIGHTS METHOD_WEIGHTS
     validate_via_npi_registry scrape_npino validate_via_google).
Local Abbreviation process :=
  (process_providers fuzz FIELD_WEIGHTS METHOD_WEIGHTS
     validate_via_npi_registry scrape_npino validate_via_google).

Lemma run_returns provider :
  get provider "npi" <> None -> get provider "address" <> None ->
  exists report, run provider = Ok report.
Proof.
  intros Hn Ha. unfold run_validations, subscript.
  destruct (get provider "npi"); [|contradiction].
  destruct (get provider "address"); [|contradiction].
  cbn [bind]. rewrite evaluate_all_eq. cbn [bind]. eauto.
Qed.

Lemma first_missing_none provider :
  first_missing_key provider = None ->
  get provider "name" <> None /\ get provider "npi" <> None
  /\ get provider "address" <> None /\ get provider "phone" <> None
  /\ get provider "specialty" <> None.
Proof.
  unfold first_missing_key, printed_keys. simpl.
  destruct (get provider "name"); [|discriminate].
  destruct (get provider "npi"); [|discriminate].
  destruct (get provider "address"); [|discriminate].
  destruct (get provider "phone"); [|discriminate].
  destruct (get provider "specialty"); [|discriminate].
  intros _. repeat split; discriminate.
Qed.

Lemma process_loop providers acc :
  Forall (fun p => first_missing_key p = None) providers ->
  exists results,
    for_each providers
      (fun all_results provider =>
         _ <- subscript provider "name" ;;
         _ <- subscript provider "npi" ;;
         _ <- subscript provider "address" ;;
         _ <- subscript provider "phone" ;;
         _ <- subscript provider "specialty" ;;
         match run provider with
         | Ok result => Ok (all_results ++ [(provider, result)])%list
         | Raise _ => Ok all_results
         end)
      acc = Ok (acc ++ results)%list
    /\ map fst results = providers
    /\ Forall (fun item => run (fst item) = Ok (snd item)) results.
Proof.
  intros H. revert acc. induction H as [|p providers Hp _ IH]; intros acc.
  - exists []. simpl. rewrite app_nil_r. auto.
  - destruct (first_missing_none p Hp) as (H1 & H2 & H3 & H4 & H5).
    destruct (run_returns p H2 H3) as [report Hr].
    destruct (IH (acc ++ [(p, report)])%list) as (results & E & Hm & Hall).
    exists ((p, report) :: results). simpl for_each. unfold subscript at 1 2 3 4 5.
    destruct (get p "name"); [|contradiction].
    destruct (get p "npi"); [|contradiction].
    destruct (get p "address"); [|contradiction].
    destruct (get p "phone"); [|contradiction].
    destruct (get p "specialty"); [|contradiction].
    cbn [bind]. rewrite Hr. cbn [bind]. rewrite E, <- app_assoc.
    split; [reflexivity|]. split; [simpl; now rewrite Hm|].
    constructor; [exact Hr|exact Hall].
Qed.



End PipelineFacts.

(** * The further properties on concrete inputs *)

Lemma specialty_ignores_case_and_margins_witness :
  "  Pediatrics " <> "" /\ "PEDIATRICS" <> ""
  /\ PyStr.strip (PyStr.lower "  Pediatrics ") = PyStr.strip (PyStr.lower "PEDIATRICS")
  /\ field_confidence_for_method indel_fuzz "specialty"
       (Some "  Pediatrics ") (Some "PEDIATRICS") = 100.
Proof.
  assert (Ha : "  Pediatrics " <> "") by discriminate.
  assert (Hb : "PEDIATRICS" <> "") by discriminate.
  assert (He : PyStr.strip (PyStr.lower "  Pediatrics ")
               = PyStr.strip (PyStr.lower "PEDIATRICS")) by reflexivity.
  repeat (split; [assumption|]).
  exact (specialty_ignores_case_and_margins indel_fuzz _ _ Ha Hb He).
Defined.

Lemma phone_without_digits_scores_zero_witness :
  (digits_of (str_of (Some "N/A")) = "" \/ digits_of (str_of (Some "N/A")) = "")
  /\ field_confidence_for_method indel_fuzz "phone" (Some "N/A") (Some "N/A") = 0.
Proof.
  assert (H : digits_of (str_of (Some "N/A")) = ""
              \/ digits_of (str_of (Some "N/A")) = "") by (left; reflexivity).
  split; [exact H|].
  exact (proj1 (phone_without_digits_scores_zero indel_fuzz
                  (Some "N/A") (Some "N/A") H)).
Defined.

Lemma email_is_unknown :
  ~ In "email" ["name"; "address"; "specialty"; "phone"; "npi"].
Proof. simpl. intuition discriminate. Defined.

Lemma unknown_field_scores_zero_witness :
  ~ In "email" ["name"; "address"; "specialty"; "phone"; "npi"]
  /\ In "email" (keys Sample.field_weights_with_email)
  /\ field_confidence_for_method indel_fuzz "email"
       (Some "kevin@example.org") (Some "kevin@example.org") = 0
  /\ exists combined rows c,
       compute_combined_field_confidences indel_fuzz
         Sample.field_weights_with_email Defaults.METHOD_WEIGHTS
         Sample.extracted_with_email
         [("web_scrape", Sample.extracted_with_email)] None
       = Ok (combined, rows)
       /\ get combined "email" = Some c /\ c == 0.
Proof.
  assert (Hin : In "email" (keys Sample.field_weights_with_email))
    by (simpl; tauto).
  destruct (unknown_field_scores_zero indel_fuzz Sample.field_weights_with_email
              Defaults.METHOD_WEIGHTS Sample.extracted_with_email
              [("web_scrape", Sample.extracted_with_email)] None "email"
              email_is_unknown) as [Hz Hc].
  split; [exact email_is_unknown|]. split; [exact Hin|].
  split; [apply Hz|exact (Hc Hin)].
Defined.

Lemma default_field_weights_wf : wf Defaults.FIELD_WEIGHTS.
Proof. solve_wf. Defined.

Lemma results_are_keyed_by_fields_and_methods_witness :
  wf Defaults.FIELD_WEIGHTS /\ wf Demo.methods
  /\ exists scores combined rows overall,
       evaluate_all indel_fuzz Defaults.FIELD_WEIGHTS Defaults.METHOD_WEIGHTS
         Demo.extracted Demo.methods None None
         = Ok (scores, combined, rows, overall)
       /\ keys combined = ["npi"; "name"; "address"; "phone"; "specialty"]
       /\ keys rows = ["npi_registry"; "web_scrape"; "google_maps"]
       /\ keys scores = ["npi_registry"; "web_scrape"; "google_maps"].
Proof.
  split; [exact default_field_weights_wf|]. split; [exact demo_methods_wf|].
  destruct (results_are_keyed_by_fields_and_methods indel_fuzz
              Defaults.FIELD_WEIGHTS Defaults.METHOD_WEIGHTS
              Demo.extracted Demo.methods None None
              default_field_weights_wf demo_methods_wf)
    as (scores & combined & rows & overall & E & H1 & H2 & H3 & _).
  exists scores, combined, rows, overall. auto.
Defined.

Lemma demo_with_extra_wf :
  wf (Demo.methods ++ ("manual_review", Demo.npireg) :: [])%list.
Proof. solve_wf. Defined.

Lemma zero_weight_method_is_ignored_witness :
  wf (Demo.methods ++ ("manual_review", Demo.npireg) :: [])%list
  /\ weight_of Defaults.METHOD_WEIGHTS "manual_review" == 0
  /\ exists combined rows rows',
       compute_combined_field_confidences indel_fuzz Defaults.FIELD_WEIGHTS
         Defaults.METHOD_WEIGHTS Demo.extracted
         (Demo.methods ++ ("manual_review", Demo.npireg) :: [])%list None
       = Ok (combined, rows)
       /\ compute_combined_field_confidences indel_fuzz Defaults.FIELD_WEIGHTS
            Defaults.METHOD_WEIGHTS Demo.extracted
            (Demo.methods ++ [])%list None
          = Ok (combined, rows').
Proof.
  assert (Hw : weight_of Defaults.METHOD_WEIGHTS "manual_review" == 0)
    by reflexivity.
  split; [exact demo_with_extra_wf|]. split; [exact Hw|].
  exact (zero_weight_method_is_ignored indel_fuzz Defaults.FIELD_WEIGHTS
           Defaults.METHOD_WEIGHTS Demo.extracted Demo.methods
           "manual_review" Demo.npireg [] None demo_with_extra_wf Hw).
Defined.



Lemma empty_claim_scores_zero_witness :
  (forall f, truthy (get_val [] f) = false)
  /\ exists scores combined rows overall,
       evaluate_all indel_fuzz Defaults.FIELD_WEIGHTS Defaults.METHOD_WEIGHTS
         [] Demo.methods None None = Ok (scores, combined, rows, overall)
       /\ values_zero combined /\ overall == 0.
Proof.
  assert (H : forall f, truthy (get_val [] f) = false) by reflexivity.
  split; [exact H|].
  destruct (empty_claim_scores_zero indel_fuzz Defaults.FIELD_WEIGHTS
              Defaults.METHOD_WEIGHTS [] Demo.methods None None H)
    as (scores & combined & rows & overall & E & _ & _ & Hc & Ho).
  exists scores, combined, rows, overall. auto.
Defined.

Lemma demo_agrees_with_email :
  agree_on (keys Defaults.FIELD_WEIGHTS) Demo.extracted Sample.extracted_with_email.
Proof.
  intros f [<-|[<-|[<-|[<-|[<-|[]]]]]]; reflexivity.
Defined.

Lemma demo_methods_agree :
  methods_agree_on (keys Defaults.FIELD_WEIGHTS) Demo.methods Demo.methods.
Proof.
  unfold methods_agree_on, Demo.methods.
  repeat (constructor; [split; [reflexivity|intros f _; reflexivity]|]).
  constructor.
Defined.

Lemma only_tracked_fields_are_read_witness :
  agree_on (keys Defaults.FIELD_WEIGHTS) Demo.extracted Sample.extracted_with_email
  /\ methods_agree_on (keys Defaults.FIELD_WEIGHTS) Demo.methods Demo.methods
  /\ evaluate_all indel_fuzz Defaults.FIELD_WEIGHTS Defaults.METHOD_WEIGHTS
       Demo.extracted Demo.methods None None
     = evaluate_all indel_fuzz Defaults.FIELD_WEIGHTS Defaults.METHOD_WEIGHTS
         Sample.extracted_with_email Demo.methods None None.
Proof.
  split; [exact demo_agrees_with_email|]. split; [exact demo_methods_agree|].
  exact (only_tracked_fields_are_read indel_fuzz Defaults.FIELD_WEIGHTS
           Defaults.METHOD_WEIGHTS Demo.extracted Sample.extracted_with_email
           Demo.methods Demo.methods None None
           demo_agrees_with_email demo_methods_agree).
Defined.

Local Abbreviation sample_run :=
  (run_validations indel_fuzz Defaults.FIELD_WEIGHTS Defaults.METHOD_WEIGHTS
     Sample.registry Sample.scraper Sample.geocoder).

Lemma run_validations_needs_npi_and_address_witness :
  get Skewed.extracted "npi" <> None /\ get Skewed.extracted "address" = None
  /\ sample_run Skewed.extracted = Raise (KeyError "address")
  /\ sample_run [] = Raise (KeyError "npi").
Proof.
  assert (Hn : get Skewed.extracted "npi" <> None) by discriminate.
  assert (Ha : get Skewed.extracted "address" = None) by reflexivity.
  split; [exact Hn|]. split; [exact Ha|].
  destruct (run_validations_needs_npi_and_address indel_fuzz
              Defaults.FIELD_WEIGHTS Defaults.METHOD_WEIGHTS
              Sample.registry Sample.scraper Sample.geocoder Skewed.extracted)
    as (_ & H2 & _).
  destruct (run_validations_needs_npi_and_address indel_fuzz
              Defaults.FIELD_WEIGHTS Defaults.METHOD_WEIGHTS
              Sample.registry Sample.scraper Sample.geocoder [])
    as (H1 & _ & _).
  split; [exact (H2 Hn Ha)|exact (H1 eq_refl)].
Defined.

Lemma run_validations_report_witness :
  get Demo.extracted "npi" = Some (Some "1003000480")
  /\ get Demo.extracted "address"
     = Some (Some "1550 S Potomac St Ste 100, Aurora, CO 80012")
  /\ nonneg_weights Defaults.FIELD_WEIGHTS
  /\ nonneg_weights Defaults.METHOD_WEIGHTS
  /\ exists report,
       sample_run Demo.extracted = Ok report
       /\ keys (method_confidences report)
          = ["npi_registry"; "web_scrape"; "google_maps"]
       /\ values_in_range (method_confidences report)
       /\ in_range (overall_confidence report).
Proof.
  assert (Hn : get Demo.extracted "npi" = Some (Some "1003000480"))
    by reflexivity.
  assert (Ha : get Demo.extracted "address"
               = Some (Some "1550 S Potomac St Ste 100, Aurora, CO 80012"))
    by reflexivity.
  split; [exact Hn|]. split; [exact Ha|].
  split; [exact default_field_weights_nonneg|].
  split; [exact default_method_weights_nonneg|].
  destruct (run_validations_report indel_fuzz Defaults.FIELD_WEIGHTS
              Defaults.METHOD_WEIGHTS Sample.registry Sample.scraper
              Sample.geocoder Demo.extracted _ _ Hn Ha
              default_field_weights_nonneg default_method_weights_nonneg)
    as (report & rows & E & Hm & _ & _ & Hr & _ & Ho).
  exists report. split; [exact E|]. split; [rewrite Hm; reflexivity|]. auto.
Defined.

Lemma allowed_file_accepts_csv_extension_witness :
  FileNames.allowed_file "providers.2024.CSV" = Some true
  /\ FileNames.allowed_file "csv" = Some false.
Proof.
  destruct (FileNameFacts.allowed_file_accepts_csv_extension "providers.2024.CSV")
    as (b & E & Hb).
  destruct (FileNameFacts.allowed_file_accepts_csv_extension "csv")
    as (b' & E' & _).
  split.
  - rewrite E. f_equal. apply Hb. exists "providers.2024", "CSV".
    repeat split.
  - rewrite E'. vm_compute in E'. symmetry. exact E'.
Defined.

Lemma detect_file_type_routes_by_extension_witness :
  PySplit.contains_char "." "CSV" = false
  /\ FileNames.detect_file_type (fun _ => 1%nat) (fun _ => 2%nat) "inputs/data.CSV"
     = FileNames.Extracted 1%nat
  /\ FileNames.detect_file_type (fun _ => 1%nat) (fun _ => 2%nat) "CSV"
     = FileNames.Extracted 1%nat
  /\ FileNames.allowed_file "CSV" = Some false.
Proof.
  assert (H : PySplit.contains_char "." "CSV" = false) by reflexivity.
  split; [exact H|].
  destruct (FileNameFacts.detect_file_type_routes_by_extension
              (fun _ => 1%nat) (fun _ => 2%nat) "inputs/data" "CSV" H)
    as (H1 & H2 & H3 & _).
  split; [exact H1|]. split; [exact H2|exact H3].
Defined.

Lemma sample_results_have_status :
  Forall (fun r => get (NpiMatcher.npi_data r) "status" <> None)
    [Sample.matched; Sample.mismatched].
Proof. repeat constructor; discriminate. Defined.

Lemma summary_counts_and_success_rate_witness :
  Forall (fun r => get (NpiMatcher.npi_data r) "status" <> None)
    [Sample.matched; Sample.mismatched]
  /\ exists s,
       NpiMatcher.get_validation_summary [Sample.matched; Sample.mismatched] = Ok s
       /\ NpiMatcher.total_providers s = 2%nat
       /\ in_range (NpiMatcher.success_rate s).
Proof.
  split; [exact sample_results_have_status|].
  destruct (NpiMatcherFacts.summary_counts_and_success_rate
              [Sample.matched; Sample.mismatched] sample_results_have_status)
    as (s & E & Ht & _ & Hr & _).
  exists s. auto.
Defined.

Lemma summary_counts_mismatches_by_type_witness :
  Forall (fun r => get (NpiMatcher.npi_data r) "status" <> None)
    [Sample.matched; Sample.mismatched]
  /\ exists s,
       NpiMatcher.get_validation_summary [Sample.matched; Sample.mismatched] = Ok s
       /\ get_default (NpiMatcher.mismatch_types s) "CITY" 0%nat = 2%nat
       /\ get_default (NpiMatcher.mismatch_types s) "ZIP" 0%nat = 0%nat.
Proof.
  split; [exact sample_results_have_status|].
  destruct (NpiMatcherFacts.summary_counts_mismatches_by_type
              [Sample.matched; Sample.mismatched] sample_results_have_status)
    as (s & E & _ & Hc & _).
  exists s. split; [exact E|]. split; rewrite Hc; reflexivity.
Defined.


Lemma sample_results_produced :
  Forall (NpiMatcher.produced_by_loop Sample.upper Sample.enhanced)
    [Sample.matched; Sample.not_found].
Proof.
  constructor; [|constructor; [|constructor]].
  - exists false, 1%nat, Sample.csv_row, (NpiMatcher.Found Sample.registry_result).
    reflexivity.
  - exists true, 3%nat, Sample.csv_row, NpiMatcher.NoResult. reflexivity.
Defined.

Lemma summary_rates_of_loop_results_witness :
  Forall (NpiMatcher.produced_by_loop Sample.upper Sample.enhanced)
    [Sample.matched; Sample.not_found]
  /\ exists s,
       NpiMatcher.get_validation_summary [Sample.matched; Sample.not_found] = Ok s
       /\ in_range (NpiMatcher.success_rate s)
       /\ in_range (NpiMatcher.match_rate s).
Proof.
  split; [exact sample_results_produced|].
  destruct (NpiMatcherFacts.summary_rates_of_loop_results Sample.upper
              Sample.enhanced [Sample.matched; Sample.not_found]
              sample_results_produced) as (s & E & _ & Hs & Hm).
  exists s. auto.
Defined.

Lemma sample_row_agrees :
  forall f, In f NpiMatcher.fields_to_check ->
    get_default Sample.csv_row f (Some "")
    = get_default (NpiMatcher.get_npi_provider_data (NpiMatcher.Found Sample.registry_result))
        f (Some "").
Proof.
  intros f [<-|[<-|[<-|[<-|[<-|[<-|[<-|[]]]]]]]]; reflexivity.
Defined.

Lemma basic_check_of_equal_records_witness :
  (forall f, In f NpiMatcher.fields_to_check ->
     get_default Sample.csv_row f (Some "")
     = get_default (NpiMatcher.get_npi_provider_data (NpiMatcher.Found Sample.registry_result))
         f (Some ""))
  /\ NpiMatcher.check_data_match_basic Sample.upper Sample.csv_row
       (NpiMatcher.get_npi_provider_data (NpiMatcher.Found Sample.registry_result)) = []
  /\ exists r,
       NpiMatcher.provider_result Sample.upper Sample.enhanced false 1
         Sample.csv_row
         (NpiMatcher.get_npi_provider_data (NpiMatcher.Found Sample.registry_result))
       = Ok r
       /\ NpiMatcher.match_status r = Some "PERFECT_MATCH".
Proof.
  split; [exact sample_row_agrees|].
  destruct (NpiMatcherFacts.basic_check_of_equal_records Sample.upper
              Sample.enhanced 1 Sample.csv_row Sample.registry_result sample_row_agrees)
    as (H1 & _ & _ & r & E & Hs & _).
  split; [exact H1|]. exists r. auto.
Defined.

Lemma practice_address_is_first_location_witness :
  ProviderInfo.addresses Sample.registry_result
    = Some ([Sample.mailing] ++ Sample.location :: [])%list
  /\ ProviderInfo.is_location Sample.location = true
  /\ Forall (fun x => ProviderInfo.is_location x = false) [Sample.mailing]
  /\ get (ProviderInfo.extract_all_provider_info Sample.registry_result) "City"
     = Some (Some "Aurora")
  /\ get (ProviderInfo.extract_all_provider_info Sample.registry_result) "Phone"
     = Some (Some "303-493-7000").
Proof.
  assert (E : ProviderInfo.addresses Sample.registry_result
              = Some ([Sample.mailing] ++ Sample.location :: [])%list)
    by reflexivity.
  assert (Hl : ProviderInfo.is_location Sample.location = true) by reflexivity.
  assert (Hp : Forall (fun x => ProviderInfo.is_location x = false) [Sample.mailing])
    by (repeat constructor).
  split; [exact E|]. split; [exact Hl|]. split; [exact Hp|].
  destruct (ProviderInfoFacts.practice_address_is_first_location
              Sample.registry_result) as (H & _ & _).
  destruct (H [Sample.mailing] Sample.location [] E Hl Hp)
    as (_ & Hc & _ & _ & Hph).
  split; [exact Hc|exact Hph].
Defined.

Lemma primary_specialty_is_first_flagged_witness :
  ProviderInfo.taxonomies Sample.registry_result
    = Some ([Sample.surgery] ++ Sample.pediatrics :: [])%list
  /\ ProviderInfo.is_primary Sample.pediatrics = true
  /\ Forall (fun x => ProviderInfo.is_primary x = false) [Sample.surgery]
  /\ get (ProviderInfo.extract_all_provider_info Sample.registry_result)
       "Speciality" = Some (Some "Pediatrics").
Proof.
  assert (E : ProviderInfo.taxonomies Sample.registry_result
              = Some ([Sample.surgery] ++ Sample.pediatrics :: [])%list)
    by reflexivity.
  assert (Hl : ProviderInfo.is_primary Sample.pediatrics = true) by reflexivity.
  assert (Hp : Forall (fun x => ProviderInfo.is_primary x = false) [Sample.surgery])
    by (repeat constructor).
  split; [exact E|]. split; [exact Hl|]. split; [exact Hp|].
  destruct (ProviderInfoFacts.primary_specialty_is_first_flagged
              Sample.registry_result) as (H & _ & _).
  exact (proj1 (H [Sample.surgery] Sample.pediatrics [] E Hl Hp)).
Defined.

Local Abbreviation sample_process :=
  (process_providers indel_fuzz Defaults.FIELD_WEIGHTS Defaults.METHOD_WEIGHTS
     Sample.registry Sample.scraper Sample.geocoder).


